(** * GstMixer: the mixer interface's virtual-function wrappers

    A shallow embedding of [gst-libs/gst/mixer/mixer.c]: the seven wrappers
    that dispatch through the per-class table of optional function pointers,
    and the four notification helpers that emit a signal on the mixer and
    then on the track (or options) object.

    C state is threaded explicitly: a computation takes a [World] and either
    returns a value with the next world, or does not return at all ([None]:
    an out-of-bounds store, a signed overflow, a callback that aborts). *)

From Stdlib Require Import ZArith Ascii String List Lia.
From stdpp Require Import gmap list strings.
From Equations Require Import Equations.

Local Open Scope Z_scope.

(** ** Integers and memory *)

Definition G_MAXINT : Z := 2147483647.
Definition G_MININT : Z := -2147483648.

(** The values a [gint] can hold. *)
Definition is_gint (z : Z) : Prop := G_MININT ≤ z ≤ G_MAXINT.

(** A [gint *]: an array object and a position in it. *)
Record gint_ptr := mk_gint_ptr { p_block : positive; p_ofs : Z }.

(** [volumes[i] = v].  The store is defined only inside the array object
    the pointer points into. *)
Definition store_gint (m : gmap positive (list Z)) (p : gint_ptr) (i v : Z)
  : option (gmap positive (list Z)) :=
  match m !! p_block p with
  | Some cells =>
      if bool_decide (0 ≤ p_ofs p + i < Z.of_nat (length cells))
      then Some (<[p_block p := <[Z.to_nat (p_ofs p + i) := v]> cells]> m)
      else None
  | None => None
  end.

(** The array object a pointer points into, when there is one. *)
Definition array_of (m : gmap positive (list Z)) (p : gint_ptr) : option (list Z) :=
  m !! p_block p.

(** ** GLib data *)

(** A [GObject *] is the identity of an instance. *)
Definition GObject := positive.

(** [const gchar *]: [None] is the NULL pointer, [Some s] points at the
    NUL-terminated string [s]. *)
Definition gchar_ptr := option string.

(** [GList *]: the NULL pointer, which GLib takes as the list with no
    elements, or a pointer to a node with its data and the next pointer. *)
Inductive GList (A : Type) : Type :=
| GList_NULL
| GList_node (data : A) (next : GList A).
Arguments GList_NULL {A}.
Arguments GList_node {A} data next.

Fixpoint g_list_elems {A} (l : GList A) : list A :=
  match l with
  | GList_NULL => []
  | GList_node d next => d :: g_list_elems next
  end.

Definition g_list_length {A} (l : GList A) : nat := length (g_list_elems l).

(** ** Mixer entities *)

(** Modelled from the spec: the struct GstMixerTrack of mixertrack.h, which
    is not among the sources (section 3: identity, label, channel count,
    flags).  [mixer.c] reads [num_channels] only. *)
Record GstMixerTrack := mk_track {
  track_obj : GObject;
  track_label : string;
  track_flags : Z;
  num_channels : Z
}.

(** Modelled from the spec: the struct GstMixerOptions of mixeroptions.h,
    which is not among the sources (section 3: identity and label). *)
Record GstMixerOptions := mk_options {
  options_obj : GObject;
  options_label : string
}.

(** A [GstMixer *]: the element that implements the interface. *)
Definition GstMixer := GObject.

Inductive GstMixerType := GST_MIXER_HARDWARE | GST_MIXER_SOFTWARE.

#[global] Instance gint_ptr_eq_dec : EqDecision gint_ptr.
Proof. solve_decision. Defined.
#[global] Instance GstMixerTrack_eq_dec : EqDecision GstMixerTrack.
Proof. solve_decision. Defined.
#[global] Instance GstMixerOptions_eq_dec : EqDecision GstMixerOptions.
Proof. solve_decision. Defined.

(** ** Signals *)

(** The arguments an emission carries. *)
Inductive GValue :=
| GV_track (t : GstMixerTrack)
| GV_options (o : GstMixerOptions)
| GV_boolean (b : bool)
| GV_pointer (p : gint_ptr)
| GV_string (s : gchar_ptr).

#[global] Instance GValue_eq_dec : EqDecision GValue.
Proof. solve_decision. Defined.

(** The record of what the signal system did, oldest first: an emission
    started on an instance, a connected handler was invoked. *)
Inductive Event :=
| EvEmit (instance : GObject) (signal : string) (args : list GValue)
| EvInvoke (handler : nat) (instance : GObject) (signal : string)
    (args : list GValue).

#[global] Instance Event_eq_dec : EqDecision Event.
Proof. solve_decision. Defined.

Definition is_emit (e : Event) : bool :=
  match e with EvEmit _ _ _ => true | EvInvoke _ _ _ _ => false end.

(** The handlers invoked, in order. *)
Definition invoked (log : list Event) : list nat :=
  omap (λ e, match e with
             | EvInvoke h _ _ _ => Some h
             | EvEmit _ _ _ => None
             end) log.

Inductive MixerSignal :=
| SIGNAL_MUTE_TOGGLED
| SIGNAL_RECORD_TOGGLED
| SIGNAL_VOLUME_CHANGED
| SIGNAL_OPTION_CHANGED.

(** [gst_mixer_signals[]] as [gst_mixer_class_init] fills it: a signal id is
    identified with the name it was registered under by [g_signal_new]. *)
Definition gst_mixer_signals (s : MixerSignal) : string :=
  match s with
  | SIGNAL_RECORD_TOGGLED => "record-toggled"
  | SIGNAL_MUTE_TOGGLED => "mute-toggled"
  | SIGNAL_VOLUME_CHANGED => "volume-changed"
  | SIGNAL_OPTION_CHANGED => "option-changed"
  end%string.

(** GLib reads [_] in a signal name as [-]. *)
Fixpoint signal_canon (s : string) : string :=
  match s with
  | EmptyString => EmptyString
  | String c s' =>
      String (if Ascii.eqb c "_"%char then "-"%char else c) (signal_canon s')
  end.

(** ** The state of the program *)

(** What C code can read and write: the [gint] arrays, and a state [U]
    private to the device implementations and to the signal handlers. *)
Record State (U : Type) := mk_state {
  s_mem : gmap positive (list Z);
  s_user : U
}.
Arguments mk_state {U} s_mem s_user.
Arguments s_mem {U} s.
Arguments s_user {U} s.

(** The state together with the record of the signal system. *)
Record World (U : Type) := mk_world {
  w_state : State U;
  w_log : list Event
}.
Arguments mk_world {U} w_state w_log.
Arguments w_state {U} w.
Arguments w_log {U} w.

(** A C call: it returns a value and the next world, or does not return. *)
Definition M (U A : Type) : Type := World U → option (A * World U).

Definition ret {U A} (a : A) : M U A := λ w, Some (a, w).

Definition bind {U A B} (c : M U A) (k : A → M U B) : M U B :=
  λ w, match c w with
       | Some (a, w') => k a w'
       | None => None
       end.

Notation "c1 ;;; c2" := (bind c1 (λ _, c2))
  (at level 100, c2 at level 200, right associativity).

(** The world a call leaves, when it returns. *)
Definition exec {U A} (c : M U A) (w : World U) : option (World U) :=
  snd <$> c w.

(** ** The class structure *)

(** The table of virtual functions of [GstMixerClass]; a NULL pointer is
    [None]. *)
Record GstMixerClass (U : Type) := mk_class {
  mixer_type : GstMixerType;
  list_tracks : option (GstMixer → M U (GList GstMixerTrack));
  set_volume : option (GstMixer → GstMixerTrack → gint_ptr → M U unit);
  get_volume : option (GstMixer → GstMixerTrack → gint_ptr → M U unit);
  set_mute : option (GstMixer → GstMixerTrack → bool → M U unit);
  set_record : option (GstMixer → GstMixerTrack → bool → M U unit);
  set_option : option (GstMixer → GstMixerOptions → gchar_ptr → M U unit);
  get_option : option (GstMixer → GstMixerOptions → M U gchar_ptr)
}.
Arguments mk_class {U}.
Arguments mixer_type {U} g.
Arguments list_tracks {U} g.
Arguments set_volume {U} g.
Arguments get_volume {U} g.
Arguments set_mute {U} g.
Arguments set_record {U} g.
Arguments set_option {U} g.
Arguments get_option {U} g.

(** [gst_mixer_class_init]: the type is a software mixer and every virtual
    function is NULL until an implementation installs its own. *)
Definition gst_mixer_class_init {U} (klass : GstMixerClass U) : GstMixerClass U :=
  {| mixer_type := GST_MIXER_SOFTWARE;
     list_tracks := None;
     set_volume := None;
     get_volume := None;
     set_mute := None;
     set_record := None;
     set_option := None;
     get_option := None |}.

(** ** The fallback loop of [gst_mixer_get_volume]

    [for (i = 0; i < track->num_channels; i++) volumes[i] = 0;] from the
    current value of [i].  The increment of a [gint] is defined only up to
    [G_MAXINT]. *)
Equations? zero_volumes (n : Z) (volumes : gint_ptr) (i : Z)
    (m : gmap positive (list Z)) : option (gmap positive (list Z))
    by wf (Z.to_nat (n - i)) lt :=
  zero_volumes n volumes i m with decide (i < n) => {
    | right _ => Some m
    | left _ with store_gint m volumes i 0 => {
        | None => None
        | Some m' with decide (i + 1 ≤ G_MAXINT) => {
            | left _ => zero_volumes n volumes (i + 1) m'
            | right _ => None } } }.
Proof. lia. Qed.

(** ** Connections *)

(** A connection of a handler to a signal of an instance.  The handler gets
    the instance and the arguments of the emission; it returns the next
    state, or does not return. *)
Record Connection (U : Type) := mk_connection {
  c_id : nat;
  c_instance : GObject;
  c_signal : string;
  c_handler : GObject → list GValue → State U → option (State U)
}.
Arguments mk_connection {U}.
Arguments c_id {U} c.
Arguments c_instance {U} c.
Arguments c_signal {U} c.
Arguments c_handler {U} c.

(** The connection is to this signal of this instance; [_] and [-] in
    the names are not told apart. *)
Definition connected_to {U} (c : Connection U) (instance : GObject)
    (signal : string) : bool :=
  bool_decide (c_instance c = instance) &&
  bool_decide (signal_canon (c_signal c) = signal_canon signal).

Section Mixer.

(** The private state of the implementations and handlers. *)
Context {U : Type}.

(** The macro [GST_MIXER_GET_CLASS] of mixer.h, which is not among the
    sources: the class structure of the type of an instance. *)
Variable GST_MIXER_GET_CLASS : GstMixer → GstMixerClass U.

(** The handlers connected to signals, in the order they were connected. *)
Variable connections : list (Connection U).

(** *** Virtual-function wrappers *)

Definition gst_mixer_list_tracks (mixer : GstMixer)
  : M U (GList GstMixerTrack) :=
  let klass := GST_MIXER_GET_CLASS mixer in
  match list_tracks klass with
  | Some list_tracks_impl => list_tracks_impl mixer
  | None => ret GList_NULL
  end.

Definition gst_mixer_set_volume (mixer : GstMixer) (track : GstMixerTrack)
    (volumes : gint_ptr) : M U unit :=
  let klass := GST_MIXER_GET_CLASS mixer in
  match set_volume klass with
  | Some set_volume_impl => set_volume_impl mixer track volumes
  | None => ret tt
  end.

Definition gst_mixer_get_volume (mixer : GstMixer) (track : GstMixerTrack)
    (volumes : gint_ptr) : M U unit :=
  let klass := GST_MIXER_GET_CLASS mixer in
  match get_volume klass with
  | Some get_volume_impl => get_volume_impl mixer track volumes
  | None =>
      λ w,
        match zero_volumes (num_channels track) volumes 0
                (s_mem (w_state w)) with
        | Some m' =>
            Some (tt, {| w_state := {| s_mem := m';
                                       s_user := s_user (w_state w) |};
                         w_log := w_log w |})
        | None => None
        end
  end.

Definition gst_mixer_set_mute (mixer : GstMixer) (track : GstMixerTrack)
    (mute : bool) : M U unit :=
  let klass := GST_MIXER_GET_CLASS mixer in
  match set_mute klass with
  | Some set_mute_impl => set_mute_impl mixer track mute
  | None => ret tt
  end.

Definition gst_mixer_set_record (mixer : GstMixer) (track : GstMixerTrack)
    (record : bool) : M U unit :=
  let klass := GST_MIXER_GET_CLASS mixer in
  match set_record klass with
  | Some set_record_impl => set_record_impl mixer track record
  | None => ret tt
  end.

Definition gst_mixer_set_option (mixer : GstMixer) (opts : GstMixerOptions)
    (value : gchar_ptr) : M U unit :=
  let klass := GST_MIXER_GET_CLASS mixer in
  match set_option klass with
  | Some set_option_impl => set_option_impl mixer opts value
  | None => ret tt
  end.

Definition gst_mixer_get_option (mixer : GstMixer) (opts : GstMixerOptions)
  : M U gchar_ptr :=
  let klass := GST_MIXER_GET_CLASS mixer in
  match get_option klass with
  | Some get_option_impl => get_option_impl mixer opts
  | None => ret None
  end.

(** *** Signal emission *)

(** The handlers of [cs] connected to the signal run one after the other,
    each on the state the one before left.  A handler that does not return
    ends the run: C has nothing that would resume it. *)
Fixpoint run_handlers (cs : list (Connection U)) (instance : GObject)
    (signal : string) (args : list GValue) (w : World U)
  : option (World U) :=
  match cs with
  | [] => Some w
  | c :: cs' =>
      if connected_to c instance signal then
        match c_handler c instance args (w_state w) with
        | Some s' =>
            run_handlers cs' instance signal args
              {| w_state := s';
                 w_log := w_log w ++
                   [EvInvoke (c_id c) instance (signal_canon signal) args] |}
        | None => None
        end
      else run_handlers cs' instance signal args w
  end.

(** Modelled from the spec: [g_signal_emit_by_name] of GLib (section 6,
    the observer registration mechanism: deliver synchronously to all live
    subscriptions of the kind and scope, in registration order). *)
Definition g_signal_emit_by_name (instance : GObject) (signal : string)
    (args : list GValue) : M U unit :=
  λ w,
    match run_handlers connections instance signal args
            {| w_state := w_state w;
               w_log := w_log w ++
                 [EvEmit instance (signal_canon signal) args] |} with
    | Some w' => Some (tt, w')
    | None => None
    end.

(** Modelled from the spec: [g_signal_emit] of GLib, the emission by
    signal id; the same delivery as by name (section 6).  The detail is
    0 at every call of mixer.c. *)
Definition g_signal_emit (instance : GObject) (signal_id : string)
    (detail : Z) (args : list GValue) : M U unit :=
  g_signal_emit_by_name instance signal_id args.

(** [G_OBJECT (x)]: the instance behind a mixer, a track, an options
    group. *)
Definition G_OBJECT_mixer (mixer : GstMixer) : GObject := mixer.
Definition G_OBJECT_track (track : GstMixerTrack) : GObject := track_obj track.
Definition G_OBJECT_options (opts : GstMixerOptions) : GObject :=
  options_obj opts.

(** *** Notification helpers *)

Definition gst_mixer_mute_toggled (mixer : GstMixer) (track : GstMixerTrack)
    (mute : bool) : M U unit :=
  g_signal_emit (G_OBJECT_mixer mixer)
    (gst_mixer_signals SIGNAL_MUTE_TOGGLED) 0
    [GV_track track; GV_boolean mute] ;;;
  g_signal_emit_by_name (G_OBJECT_track track) "mute_toggled"
    [GV_boolean mute].

Definition gst_mixer_record_toggled (mixer : GstMixer)
    (track : GstMixerTrack) (record : bool) : M U unit :=
  g_signal_emit (G_OBJECT_mixer mixer)
    (gst_mixer_signals SIGNAL_RECORD_TOGGLED) 0
    [GV_track track; GV_boolean record] ;;;
  g_signal_emit_by_name (G_OBJECT_track track) "record_toggled"
    [GV_boolean record].

Definition gst_mixer_volume_changed (mixer : GstMixer)
    (track : GstMixerTrack) (volumes : gint_ptr) : M U unit :=
  g_signal_emit (G_OBJECT_mixer mixer)
    (gst_mixer_signals SIGNAL_VOLUME_CHANGED) 0
    [GV_track track; GV_pointer volumes] ;;;
  g_signal_emit_by_name (G_OBJECT_track track) "volume_changed"
    [GV_pointer volumes].

Definition gst_mixer_option_changed (mixer : GstMixer)
    (opts : GstMixerOptions) (value : gchar_ptr) : M U unit :=
  g_signal_emit (G_OBJECT_mixer mixer)
    (gst_mixer_signals SIGNAL_OPTION_CHANGED) 0
    [GV_options opts; GV_string value] ;;;
  g_signal_emit_by_name (G_OBJECT_options opts) "value_changed"
    [GV_string value].

End Mixer.

(** ** Vocabulary of the statements *)

(** The four notifications, each with the entity and the new value. *)
Inductive Notification :=
| N_mute_toggled (track : GstMixerTrack) (mute : bool)
| N_record_toggled (track : GstMixerTrack) (record : bool)
| N_volume_changed (track : GstMixerTrack) (volumes : gint_ptr)
| N_option_changed (opts : GstMixerOptions) (value : gchar_ptr).

(** The notification helper of mixer.c for each kind. *)
Definition notify {U} (connections : list (Connection U)) (mixer : GstMixer)
    (n : Notification) : M U unit :=
  match n with
  | N_mute_toggled track mute =>
      gst_mixer_mute_toggled connections mixer track mute
  | N_record_toggled track record =>
      gst_mixer_record_toggled connections mixer track record
  | N_volume_changed track volumes =>
      gst_mixer_volume_changed connections mixer track volumes
  | N_option_changed opts value =>
      gst_mixer_option_changed connections mixer opts value
  end.

(** The signal of the mixer and its arguments. *)
Definition device_signal (n : Notification) : string :=
  match n with
  | N_mute_toggled _ _ => "mute-toggled"
  | N_record_toggled _ _ => "record-toggled"
  | N_volume_changed _ _ => "volume-changed"
  | N_option_changed _ _ => "option-changed"
  end%string.

Definition device_args (n : Notification) : list GValue :=
  match n with
  | N_mute_toggled track mute => [GV_track track; GV_boolean mute]
  | N_record_toggled track record => [GV_track track; GV_boolean record]
  | N_volume_changed track volumes => [GV_track track; GV_pointer volumes]
  | N_option_changed opts value => [GV_options opts; GV_string value]
  end.

(** The entity, its signal (in canonical spelling) and its arguments. *)
Definition entity_of (n : Notification) : GObject :=
  match n with
  | N_mute_toggled track _ => track_obj track
  | N_record_toggled track _ => track_obj track
  | N_volume_changed track _ => track_obj track
  | N_option_changed opts _ => options_obj opts
  end.

Definition entity_signal (n : Notification) : string :=
  match n with
  | N_mute_toggled _ _ => "mute-toggled"
  | N_record_toggled _ _ => "record-toggled"
  | N_volume_changed _ _ => "volume-changed"
  | N_option_changed _ _ => "value-changed"
  end%string.

Definition entity_args (n : Notification) : list GValue :=
  match n with
  | N_mute_toggled _ mute => [GV_boolean mute]
  | N_record_toggled _ record => [GV_boolean record]
  | N_volume_changed _ volumes => [GV_pointer volumes]
  | N_option_changed _ value => [GV_string value]
  end.

(** Every handler of [cs] returns, whatever it is called with. *)
Definition handlers_return {U} (cs : list (Connection U)) : Prop :=
  ∀ c, c ∈ cs → ∀ instance args s, is_Some (c_handler c instance args s).

(** The invocations one emission makes: the connected handlers, in the
    order of their connection. *)
Definition deliveries {U} (cs : list (Connection U)) (instance : GObject)
    (signal : string) (args : list GValue) : list Event :=
  (λ c, EvInvoke (c_id c) instance signal args) <$>
    List.filter (λ c, connected_to c instance signal) cs.

(** One emission in the record: its start, then its invocations. *)
Definition emission {U} (cs : list (Connection U)) (instance : GObject)
    (signal : string) (args : list GValue) : list Event :=
  EvEmit instance signal args :: deliveries cs instance signal args.

(** The calls that write to a device. *)
Inductive SetCall :=
| Call_set_volume (track : GstMixerTrack) (volumes : gint_ptr)
| Call_set_mute (track : GstMixerTrack) (mute : bool)
| Call_set_record (track : GstMixerTrack) (record : bool)
| Call_set_option (opts : GstMixerOptions) (value : gchar_ptr).

Definition run_call {U} (get_class : GstMixer → GstMixerClass U)
    (mixer : GstMixer) (c : SetCall) : M U unit :=
  match c with
  | Call_set_volume track volumes =>
      gst_mixer_set_volume get_class mixer track volumes
  | Call_set_mute track mute => gst_mixer_set_mute get_class mixer track mute
  | Call_set_record track record =>
      gst_mixer_set_record get_class mixer track record
  | Call_set_option opts value =>
      gst_mixer_set_option get_class mixer opts value
  end.

Fixpoint run_calls {U} (get_class : GstMixer → GstMixerClass U)
    (mixer : GstMixer) (cs : list SetCall) : M U unit :=
  match cs with
  | [] => ret tt
  | c :: cs' => run_call get_class mixer c ;;; run_calls get_class mixer cs'
  end.

(** A class that implements none of the seven operations. *)
Definition implements_nothing {U} (klass : GstMixerClass U) : Prop :=
  list_tracks klass = None ∧ set_volume klass = None ∧
  get_volume klass = None ∧ set_mute klass = None ∧
  set_record klass = None ∧ set_option klass = None ∧
  get_option klass = None.

(** The caller's side of [gst_mixer_get_volume]: [volumes] points into the
    array [buf] with room for a [gint] per channel of the track. *)
Definition pre_sized (m : gmap positive (list Z)) (track : GstMixerTrack)
    (volumes : gint_ptr) (buf : list Z) : Prop :=
  m !! p_block volumes = Some buf ∧
  0 ≤ p_ofs volumes ∧
  p_ofs volumes + num_channels track ≤ Z.of_nat (length buf) ∧
  is_gint (num_channels track).

(** [buf] with zero at the [count] positions from [start], and as it was
    everywhere else. *)
Definition zero_range (start count : Z) (buf : list Z) : list Z :=
  imap (λ j x, if bool_decide (start ≤ Z.of_nat j < start + count)
               then 0 else x) buf.

(** ** A device and its observers, for the examples

    One track "Master" with two channels and one options group; the device
    keeps its volumes, switches and option in its private state and reports
    each change through the notification helpers. *)

Record DemoState := mk_demo {
  d_volumes : list Z;
  d_mute : bool;
  d_record : bool;
  d_option : gchar_ptr
}.

Definition demo_mixer : GstMixer := 1%positive.

Definition demo_master : GstMixerTrack :=
  {| track_obj := 2%positive; track_label := "Master"; track_flags := 0;
     num_channels := 2 |}.

Definition demo_source : GstMixerOptions :=
  {| options_obj := 3%positive; options_label := "Source" |}.

(** The caller's array of two volumes, in block 7. *)
Definition demo_buf : gint_ptr := {| p_block := 7%positive; p_ofs := 0 |}.

Definition demo_world (cells : list Z) : World DemoState :=
  {| w_state := {| s_mem := {[ 7%positive := cells ]};
                   s_user := {| d_volumes := [50; 50]; d_mute := false;
                                d_record := false; d_option := None |} |};
     w_log := [] |}.

(** [n] cells read from [p] on, when the array has them. *)
Definition load_gints (m : gmap positive (list Z)) (p : gint_ptr) (n : Z)
  : option (list Z) :=
  match m !! p_block p with
  | Some cells =>
      if bool_decide (0 ≤ p_ofs p ∧ 0 ≤ n ∧
                      p_ofs p + n ≤ Z.of_nat (length cells))
      then Some (take (Z.to_nat n) (drop (Z.to_nat (p_ofs p)) cells))
      else None
  | None => None
  end.

(** [vs] written cell by cell from index [i] of [p] on. *)
Fixpoint store_gints (m : gmap positive (list Z)) (p : gint_ptr) (i : Z)
    (vs : list Z) : option (gmap positive (list Z)) :=
  match vs with
  | [] => Some m
  | v :: vs' =>
      match store_gint m p i v with
      | Some m' => store_gints m' p (i + 1) vs'
      | None => None
      end
  end.

Definition demo_update (f : DemoState → DemoState) : M DemoState unit :=
  λ w, Some (tt, {| w_state := {| s_mem := s_mem (w_state w);
                                  s_user := f (s_user (w_state w)) |};
                    w_log := w_log w |}).

Definition demo_list_tracks (mixer : GstMixer)
  : M DemoState (GList GstMixerTrack) :=
  ret (GList_node demo_master GList_NULL).

Definition demo_set_volume (cs : list (Connection DemoState))
    (mixer : GstMixer) (track : GstMixerTrack) (volumes : gint_ptr)
  : M DemoState unit :=
  λ w, match load_gints (s_mem (w_state w)) volumes (num_channels track) with
       | Some vs =>
           (demo_update (λ d, {| d_volumes := vs; d_mute := d_mute d;
                                 d_record := d_record d;
                                 d_option := d_option d |}) ;;;
            gst_mixer_volume_changed cs mixer track volumes) w
       | None => None
       end.

Definition demo_get_volume (mixer : GstMixer) (track : GstMixerTrack)
    (volumes : gint_ptr) : M DemoState unit :=
  λ w, match store_gints (s_mem (w_state w)) volumes 0
               (d_volumes (s_user (w_state w))) with
       | Some m' =>
           Some (tt, {| w_state := {| s_mem := m';
                                      s_user := s_user (w_state w) |};
                        w_log := w_log w |})
       | None => None
       end.

Definition demo_set_mute (cs : list (Connection DemoState))
    (mixer : GstMixer) (track : GstMixerTrack) (mute : bool)
  : M DemoState unit :=
  demo_update (λ d, {| d_volumes := d_volumes d; d_mute := mute;
                       d_record := d_record d; d_option := d_option d |}) ;;;
  gst_mixer_mute_toggled cs mixer track mute.

Definition demo_set_record (cs : list (Connection DemoState))
    (mixer : GstMixer) (track : GstMixerTrack) (record : bool)
  : M DemoState unit :=
  demo_update (λ d, {| d_volumes := d_volumes d; d_mute := d_mute d;
                       d_record := record; d_option := d_option d |}) ;;;
  gst_mixer_record_toggled cs mixer track record.

Definition demo_set_option (cs : list (Connection DemoState))
    (mixer : GstMixer) (opts : GstMixerOptions) (value : gchar_ptr)
  : M DemoState unit :=
  demo_update (λ d, {| d_volumes := d_volumes d; d_mute := d_mute d;
                       d_record := d_record d; d_option := value |}) ;;;
  gst_mixer_option_changed cs mixer opts value.

Definition demo_get_option (mixer : GstMixer) (opts : GstMixerOptions)
  : M DemoState gchar_ptr :=
  λ w, Some (d_option (s_user (w_state w)), w).

(** The class of the device: all seven operations implemented. *)
Definition demo_class (cs : list (Connection DemoState))
  : GstMixerClass DemoState :=
  {| mixer_type := GST_MIXER_HARDWARE;
     list_tracks := Some demo_list_tracks;
     set_volume := Some (demo_set_volume cs);
     get_volume := Some demo_get_volume;
     set_mute := Some (demo_set_mute cs);
     set_record := Some (demo_set_record cs);
     set_option := Some (demo_set_option cs);
     get_option := Some demo_get_option |}.

(** The class of an element that installs nothing after
    [gst_mixer_class_init]. *)
Definition bare_class : GstMixerClass DemoState :=
  gst_mixer_class_init (demo_class []).

(** A handler that returns and leaves the state as it was. *)
Definition quiet_handler (instance : GObject) (args : list GValue)
    (s : State DemoState) : option (State DemoState) := Some s.

(** A handler that does not return. *)
Definition failing_handler (instance : GObject) (args : list GValue)
    (s : State DemoState) : option (State DemoState) := None.

(** Observers of the mixer and of the track, all well behaved. *)
Definition demo_connections : list (Connection DemoState) :=
  [ {| c_id := 1; c_instance := 1%positive; c_signal := "mute-toggled";
       c_handler := quiet_handler |};
    {| c_id := 2; c_instance := 2%positive; c_signal := "mute_toggled";
       c_handler := quiet_handler |};
    {| c_id := 3; c_instance := 1%positive; c_signal := "volume-changed";
       c_handler := quiet_handler |};
    {| c_id := 4; c_instance := 2%positive; c_signal := "volume-changed";
       c_handler := quiet_handler |} ].

(** Observer A on the mixer, whose handler fails, and observer B on the
    track, connected after A. *)
Definition observer_A : Connection DemoState :=
  {| c_id := 1; c_instance := 1%positive; c_signal := "mute-toggled";
     c_handler := failing_handler |}.

Definition observer_B : Connection DemoState :=
  {| c_id := 2; c_instance := 2%positive; c_signal := "mute-toggled";
     c_handler := quiet_handler |}.

Definition failing_connections : list (Connection DemoState) :=
  [observer_A; observer_B].

(** ** Type and signal registration

    [gst_mixer_get_type] and the guarded block of [gst_mixer_class_init],
    over the static variables of mixer.c.  GLib's type system is outside
    the repository: its state and the three functions mixer.c calls are
    parameters, and so are the type macros of the absent headers. *)

(** A [GType]; 0 is no type. *)
Definition GType := Z.

(** The function pointers a [GTypeInfo] of mixer.c holds. *)
Inductive InitFunc := init_gst_mixer_class_init.

(** The [GTypeInfo] structure, field by field. *)
Record GTypeInfo := mk_type_info {
  class_size : Z;
  base_init : option InitFunc;
  base_finalize : option InitFunc;
  class_init : option InitFunc;
  class_finalize : option InitFunc;
  class_data : option Z;
  instance_size : Z;
  n_preallocs : Z;
  instance_init : option InitFunc
}.

Inductive GSignalFlags := G_SIGNAL_RUN_LAST.

(** The default handler slot of [GstMixerClass] a signal is registered
    with ([G_STRUCT_OFFSET]). *)
Inductive ClassSlot :=
| slot_mute_toggled
| slot_record_toggled
| slot_volume_changed
| slot_option_changed.

(** The marshallers of mixer-marshal.h. *)
Inductive Marshaller :=
| gst_mixer_marshal_VOID__OBJECT_BOOLEAN
| gst_mixer_marshal_VOID__OBJECT_POINTER
| gst_mixer_marshal_VOID__OBJECT_STRING.

(** The arguments of one call of [g_signal_new]; the accumulator and its
    data are NULL at every call of mixer.c, and [n_params] is the length of
    [sig_params]. *)
Record SignalSpec := mk_signal_spec {
  sig_name : string;
  sig_itype : GType;
  sig_flags : GSignalFlags;
  sig_class_offset : ClassSlot;
  sig_marshaller : Marshaller;
  sig_return_type : GType;
  sig_params : list GType
}.

(** The static variables: [gst_mixer_type] of [gst_mixer_get_type],
    [initialized] of [gst_mixer_class_init], and the array
    [gst_mixer_signals[LAST_SIGNAL]] of signal ids, indexed by the
    enumeration. *)
Record Statics := mk_statics {
  gst_mixer_type : GType;
  initialized : bool;
  signal_ids : MixerSignal → Z
}.

(** The statics as the program starts. *)
Definition statics_at_start : Statics :=
  {| gst_mixer_type := 0; initialized := false; signal_ids := λ _, 0 |}.

#[global] Instance MixerSignal_eq_dec : EqDecision MixerSignal.
Proof. solve_decision. Defined.

(** [gst_mixer_signals[s] = id]. *)
Definition set_signal_id (s : MixerSignal) (id : Z) (ids : MixerSignal → Z)
  : MixerSignal → Z :=
  λ s', if decide (s' = s) then id else ids s'.

(** The statics and the state of GLib's type system. *)
Record TypeWorld (GLib : Type) := mk_type_world {
  t_statics : Statics;
  t_glib : GLib
}.
Arguments mk_type_world {GLib} t_statics t_glib.
Arguments t_statics {GLib} t.
Arguments t_glib {GLib} t.

Section Registration.

(** The state of GLib's type system, and the functions of GLib that
    mixer.c calls on it. *)
Context {GLib : Type}.
Variable g_type_register_static :
  GType → string → GTypeInfo → Z → GLib → GType * GLib.
Variable g_type_interface_add_prerequisite : GType → GType → GLib → GLib.
Variable g_signal_new : SignalSpec → GLib → Z * GLib.

(** The type macros of GLib and of the headers that are not among the
    sources, as the types they stand for; [sizeof (GstMixerClass)]. *)
Variable G_TYPE_INTERFACE G_TYPE_NONE G_TYPE_BOOLEAN G_TYPE_POINTER
  G_TYPE_STRING : GType.
Variable GST_TYPE_IMPLEMENTS_INTERFACE GST_TYPE_MIXER GST_TYPE_MIXER_TRACK
  GST_TYPE_MIXER_OPTIONS : GType.
Variable sizeof_GstMixerClass : Z.

Definition gst_mixer_info : GTypeInfo :=
  {| class_size := sizeof_GstMixerClass;
     base_init := Some init_gst_mixer_class_init;
     base_finalize := None;
     class_init := None;
     class_finalize := None;
     class_data := None;
     instance_size := 0;
     n_preallocs := 0;
     instance_init := None |}.

Definition gst_mixer_get_type (t : TypeWorld GLib) : GType * TypeWorld GLib :=
  if bool_decide (gst_mixer_type (t_statics t) = 0) then
    let '(type, g1) :=
      g_type_register_static G_TYPE_INTERFACE "GstMixer" gst_mixer_info 0
        (t_glib t) in
    let g2 :=
      g_type_interface_add_prerequisite type GST_TYPE_IMPLEMENTS_INTERFACE
        g1 in
    (type,
     {| t_statics := {| gst_mixer_type := type;
                        initialized := initialized (t_statics t);
                        signal_ids := signal_ids (t_statics t) |};
        t_glib := g2 |})
  else (gst_mixer_type (t_statics t), t).

(** What [gst_mixer_class_init] registers for each entry of
    [gst_mixer_signals[]]. *)
Definition mixer_signal_spec (s : MixerSignal) : SignalSpec :=
  match s with
  | SIGNAL_RECORD_TOGGLED =>
      {| sig_name := "record-toggled"; sig_itype := GST_TYPE_MIXER;
         sig_flags := G_SIGNAL_RUN_LAST;
         sig_class_offset := slot_record_toggled;
         sig_marshaller := gst_mixer_marshal_VOID__OBJECT_BOOLEAN;
         sig_return_type := G_TYPE_NONE;
         sig_params := [GST_TYPE_MIXER_TRACK; G_TYPE_BOOLEAN] |}
  | SIGNAL_MUTE_TOGGLED =>
      {| sig_name := "mute-toggled"; sig_itype := GST_TYPE_MIXER;
         sig_flags := G_SIGNAL_RUN_LAST;
         sig_class_offset := slot_mute_toggled;
         sig_marshaller := gst_mixer_marshal_VOID__OBJECT_BOOLEAN;
         sig_return_type := G_TYPE_NONE;
         sig_params := [GST_TYPE_MIXER_TRACK; G_TYPE_BOOLEAN] |}
  | SIGNAL_VOLUME_CHANGED =>
      {| sig_name := "volume-changed"; sig_itype := GST_TYPE_MIXER;
         sig_flags := G_SIGNAL_RUN_LAST;
         sig_class_offset := slot_volume_changed;
         sig_marshaller := gst_mixer_marshal_VOID__OBJECT_POINTER;
         sig_return_type := G_TYPE_NONE;
         sig_params := [GST_TYPE_MIXER_TRACK; G_TYPE_POINTER] |}
  | SIGNAL_OPTION_CHANGED =>
      {| sig_name := "option-changed"; sig_itype := GST_TYPE_MIXER;
         sig_flags := G_SIGNAL_RUN_LAST;
         sig_class_offset := slot_option_changed;
         sig_marshaller := gst_mixer_marshal_VOID__OBJECT_STRING;
         sig_return_type := G_TYPE_NONE;
         sig_params := [GST_TYPE_MIXER_OPTIONS; G_TYPE_STRING] |}
  end.

(** [gst_mixer_signals[s] = g_signal_new (...)] for the entry [s]. *)
Definition register_signal (s : MixerSignal) (t : TypeWorld GLib)
  : TypeWorld GLib :=
  let '(id, g) := g_signal_new (mixer_signal_spec s) (t_glib t) in
  {| t_statics := {| gst_mixer_type := gst_mixer_type (t_statics t);
                     initialized := initialized (t_statics t);
                     signal_ids := set_signal_id s id
                                     (signal_ids (t_statics t)) |};
     t_glib := g |}.

(** The block of [gst_mixer_class_init] under [if (!initialized)]: the
    four registrations in the order of the source, then the flag. *)
Definition gst_mixer_class_init_signals (t : TypeWorld GLib)
  : TypeWorld GLib :=
  if initialized (t_statics t) then t
  else
    let t1 := register_signal SIGNAL_RECORD_TOGGLED t in
    let t2 := register_signal SIGNAL_MUTE_TOGGLED t1 in
    let t3 := register_signal SIGNAL_VOLUME_CHANGED t2 in
    let t4 := register_signal SIGNAL_OPTION_CHANGED t3 in
    {| t_statics := {| gst_mixer_type := gst_mixer_type (t_statics t4);
                       initialized := true;
                       signal_ids := signal_ids (t_statics t4) |};
       t_glib := t_glib t4 |}.

(** The whole of [gst_mixer_class_init]: the guarded block on the statics,
    and the fields of the class structure. *)
Definition gst_mixer_class_init_run {U} (klass : GstMixerClass U)
    (t : TypeWorld GLib) : GstMixerClass U * TypeWorld GLib :=
  (gst_mixer_class_init klass, gst_mixer_class_init_signals t).

(** The base initialiser run once per implementing class: [k] runs. *)
Fixpoint class_init_runs (k : nat) (t : TypeWorld GLib) : TypeWorld GLib :=
  match k with
  | O => t
  | S k' => class_init_runs k' (gst_mixer_class_init_signals t)
  end.

(** [k] calls of [gst_mixer_get_type] in a row: the types returned and the
    world left. *)
Fixpoint get_type_calls (k : nat) (t : TypeWorld GLib)
  : list GType * TypeWorld GLib :=
  match k with
  | O => ([], t)
  | S k' =>
      let '(type, t1) := gst_mixer_get_type t in
      let '(types, t2) := get_type_calls k' t1 in
      (type :: types, t2)
  end.


End Registration.

(** The entry of [gst_mixer_signals[]] a notification helper emits. *)
Definition notification_signal (n : Notification) : MixerSignal :=
  match n with
  | N_mute_toggled _ _ => SIGNAL_MUTE_TOGGLED
  | N_record_toggled _ _ => SIGNAL_RECORD_TOGGLED
  | N_volume_changed _ _ => SIGNAL_VOLUME_CHANGED
  | N_option_changed _ _ => SIGNAL_OPTION_CHANGED
  end.

(** The entry [s] of [gst_mixer_signals[]] holds an id that GLib's
    [g_signal_name] gives the name of the entry for. *)
Definition entry_named {GLib} (g_signal_name : GLib → Z → option string)
    (t : TypeWorld GLib) (s : MixerSignal) : Prop :=
  g_signal_name (t_glib t) (signal_ids (t_statics t) s) =
    Some (gst_mixer_signals s).

(** ** More vocabulary for the notification helpers *)

(** What the connected handlers do to the state, one after the other; the
    record of events left aside. *)
Fixpoint apply_handlers {U} (cs : list (Connection U)) (instance : GObject)
    (signal : string) (args : list GValue) (s : State U)
  : option (State U) :=
  match cs with
  | [] => Some s
  | c :: cs' =>
      if connected_to c instance signal then
        match c_handler c instance args s with
        | Some s' => apply_handlers cs' instance signal args s'
        | None => None
        end
      else apply_handlers cs' instance signal args s
  end.

(** The connection is to one of the two signals a notification emits. *)
Definition concerned {U} (mixer : GstMixer) (n : Notification)
    (c : Connection U) : bool :=
  connected_to c mixer (device_signal n) ||
  connected_to c (entity_of n) (entity_signal n).

(** A GLib type system for the examples: the names of the types and of
    the signals registered so far, and the prerequisites added.  A new type
    or signal gets the next number, from 1. *)
Record ToyGLib := mk_toy {
  toy_types : list string;
  toy_prerequisites : list (GType * GType);
  toy_signals : list string
}.

Definition toy_register_static (parent : GType) (name : string)
    (info : GTypeInfo) (flags : Z) (g : ToyGLib) : GType * ToyGLib :=
  (Z.of_nat (S (length (toy_types g))),
   {| toy_types := toy_types g ++ [name];
      toy_prerequisites := toy_prerequisites g;
      toy_signals := toy_signals g |}).

Definition toy_add_prerequisite (type prerequisite : GType) (g : ToyGLib)
  : ToyGLib :=
  {| toy_types := toy_types g;
     toy_prerequisites := toy_prerequisites g ++ [(type, prerequisite)];
     toy_signals := toy_signals g |}.

Definition toy_signal_new (spec : SignalSpec) (g : ToyGLib) : Z * ToyGLib :=
  (Z.of_nat (S (length (toy_signals g))),
   {| toy_types := toy_types g;
      toy_prerequisites := toy_prerequisites g;
      toy_signals := toy_signals g ++ [sig_name spec] |}).

(** [g_signal_name]: the name a signal id was registered under. *)
Definition toy_signal_name (g : ToyGLib) (id : Z) : option string :=
  if bool_decide (1 ≤ id) then toy_signals g !! Z.to_nat (id - 1) else None.

Definition toy_start : TypeWorld ToyGLib :=
  {| t_statics := statics_at_start;
     t_glib := {| toy_types := []; toy_prerequisites := [];
                  toy_signals := [] |} |}.

(** ** The record of a delivery that does not return

    [run_handlers] leaves no world when a handler does not return.  To
    tell which observers the event had reached by then, the same run is
    followed here with its record kept: an invocation is noted as the
    handler is called, and the run gives the record as it stood when it
    ended, with the state when it returned. *)

Fixpoint run_handlers_traced {U} (cs : list (Connection U))
    (instance : GObject) (signal : string) (args : list GValue)
    (s : State U) (log : list Event) : list Event * option (State U) :=
  match cs with
  | [] => (log, Some s)
  | c :: cs' =>
      if connected_to c instance signal then
        match c_handler c instance args s with
        | Some s' =>
            run_handlers_traced cs' instance signal args s'
              (log ++ [EvInvoke (c_id c) instance (signal_canon signal) args])
        | None =>
            (log ++ [EvInvoke (c_id c) instance (signal_canon signal) args],
             None)
        end
      else run_handlers_traced cs' instance signal args s log
  end.

(** One emission, by name or by id, with its record kept. *)
Definition emit_traced {U} (connections : list (Connection U))
    (instance : GObject) (signal : string) (args : list GValue)
    (s : State U) (log : list Event) : list Event * option (State U) :=
  run_handlers_traced connections instance signal args s
    (log ++ [EvEmit instance (signal_canon signal) args]).

(** The two emissions of a helper, the second only when the first has
    returned. *)
Definition emit_twice_traced {U} (connections : list (Connection U))
    (mixer : GObject) (signal_id : string) (args : list GValue)
    (entity : GObject) (name : string) (args' : list GValue)
    (w : World U) : list Event * option (State U) :=
  match emit_traced connections mixer signal_id args (w_state w)
          (w_log w) with
  | (log1, Some s1) => emit_traced connections entity name args' s1 log1
  | (log1, None) => (log1, None)
  end.

(** The helper of mixer.c for each kind, with its record kept. *)
Definition notify_traced {U} (connections : list (Connection U))
    (mixer : GstMixer) (n : Notification) (w : World U)
  : list Event * option (State U) :=
  match n with
  | N_mute_toggled track mute =>
      emit_twice_traced connections (G_OBJECT_mixer mixer)
        (gst_mixer_signals SIGNAL_MUTE_TOGGLED)
        [GV_track track; GV_boolean mute]
        (G_OBJECT_track track) "mute_toggled" [GV_boolean mute] w
  | N_record_toggled track record =>
      emit_twice_traced connections (G_OBJECT_mixer mixer)
        (gst_mixer_signals SIGNAL_RECORD_TOGGLED)
        [GV_track track; GV_boolean record]
        (G_OBJECT_track track) "record_toggled" [GV_boolean record] w
  | N_volume_changed track volumes =>
      emit_twice_traced connections (G_OBJECT_mixer mixer)
        (gst_mixer_signals SIGNAL_VOLUME_CHANGED)
        [GV_track track; GV_pointer volumes]
        (G_OBJECT_track track) "volume_changed" [GV_pointer volumes] w
  | N_option_changed opts value =>
      emit_twice_traced connections (G_OBJECT_mixer mixer)
        (gst_mixer_signals SIGNAL_OPTION_CHANGED)
        [GV_options opts; GV_string value]
        (G_OBJECT_options opts) "value_changed" [GV_string value] w
  end.

(** What a call leaves according to the record kept: the world, when the
    run returned. *)
Definition outcome_of_trace {U} (r : list Event * option (State U))
  : option (unit * World U) :=
  match r with
  | (log, Some s) => Some (tt, {| w_state := s; w_log := log |})
  | (_, None) => None
  end.

(** The record of a failing delivery: up to the failing connection [c] of
    [pre ++ c :: post].  When [c] is on the mixer's signal the run ends in
    the first emission; otherwise the first emission is whole and the run
    ends in the second. *)
Definition record_at_failure {U} (pre post : list (Connection U))
    (c : Connection U) (mixer : GstMixer) (n : Notification)
    (log : list Event) : list Event :=
  if connected_to c mixer (device_signal n) then
    log ++
    EvEmit mixer (device_signal n) (device_args n) ::
    deliveries pre mixer (device_signal n) (device_args n) ++
    [EvInvoke (c_id c) mixer (device_signal n) (device_args n)]
  else
    log ++
    emission (pre ++ c :: post) mixer (device_signal n) (device_args n) ++
    EvEmit (entity_of n) (entity_signal n) (entity_args n) ::
    deliveries pre (entity_of n) (entity_signal n) (entity_args n) ++
    [EvInvoke (c_id c) (entity_of n) (entity_signal n) (entity_args n)].

(** Observer A on the track, whose handler fails, and observer B on the
    mixer, connected after A. *)
Definition observer_A_on_track : Connection DemoState :=
  {| c_id := 1; c_instance := 2%positive; c_signal := "mute-toggled";
     c_handler := failing_handler |}.

Definition observer_B_on_mixer : Connection DemoState :=
  {| c_id := 2; c_instance := 1%positive; c_signal := "mute-toggled";
     c_handler := quiet_handler |}.

(** * Properties *)

(** ** The store and the fallback loop *)

Lemma store_gint_inside m p i v cells :
  m !! p_block p = Some cells →
  0 ≤ p_ofs p + i < Z.of_nat (length cells) →
  store_gint m p i v =
    Some (<[p_block p := <[Z.to_nat (p_ofs p + i) := v]> cells]> m).
Proof.
  intros Hm Hin. unfold store_gint. rewrite Hm.
  by rewrite bool_decide_eq_true_2.
Qed.

Lemma zero_range_length start count buf :
  length (zero_range start count buf) = length buf.
Proof. unfold zero_range. by rewrite length_imap. Qed.

Lemma zero_range_lookup start count buf (j : nat) :
  zero_range start count buf !! j =
    (λ x, if bool_decide (start ≤ Z.of_nat j < start + count) then 0 else x)
      <$> buf !! j.
Proof. unfold zero_range. by rewrite list_lookup_imap. Qed.

Lemma zero_range_empty start count buf :
  count ≤ 0 → zero_range start count buf = buf.
Proof.
  intros Hc. apply list_eq. intros j. rewrite zero_range_lookup.
  rewrite bool_decide_eq_false_2 by lia. by destruct (buf !! j).
Qed.

Lemma zero_range_step start count buf :
  0 ≤ start → 0 < count →
  zero_range (start + 1) (count - 1) (<[Z.to_nat start := 0]> buf) =
    zero_range start count buf.
Proof.
  intros Hs Hc. apply list_eq. intros j. rewrite !zero_range_lookup.
  destruct (decide (j = Z.to_nat start)) as [->|Hne].
  - destruct (decide (Z.to_nat start < length buf)%nat) as [Hlt|Hge].
    + rewrite list_lookup_insert_eq by done.
      destruct (lookup_lt_is_Some_2 buf _ Hlt) as [x ->]. simpl.
      rewrite bool_decide_eq_false_2 by lia.
      case_bool_decide; [done | lia].
    + rewrite list_insert_ge by lia.
      by rewrite (lookup_ge_None_2 buf (Z.to_nat start)) by lia.
  - rewrite list_lookup_insert_ne by done. destruct (buf !! j); [|done].
    simpl. f_equal. repeat case_bool_decide; lia.
Qed.

Lemma zero_volumes_done n p i m : n ≤ i → zero_volumes n p i m = Some m.
Proof.
  intros Hle. simp zero_volumes. destruct (decide (i < n)); [lia | done].
Qed.

(** The loop from [i] on: inside the array it returns, and the array then
    has zero at the positions of the channels [i .. n-1]. *)
Lemma zero_volumes_fills (k : nat) : ∀ n p i m buf,
  Z.to_nat (n - i) = k →
  m !! p_block p = Some buf →
  0 ≤ p_ofs p + i →
  p_ofs p + n ≤ Z.of_nat (length buf) →
  n ≤ G_MAXINT →
  zero_volumes n p i m =
    Some (<[p_block p := zero_range (p_ofs p + i) (n - i) buf]> m).
Proof.
  induction k as [|k IH]; intros n p i m buf Hk Hm Hlo Hhi Hmax.
  - rewrite zero_volumes_done by lia. rewrite zero_range_empty by lia.
    by rewrite insert_id.
  - simp zero_volumes. destruct (decide (i < n)) as [Hlt|]; [|lia]. simpl.
    rewrite (store_gint_inside m p i 0 buf) by (done || lia). simpl.
    destruct (decide (i + 1 ≤ G_MAXINT)); [|lia]. simpl.
    rewrite (IH n p (i + 1) _ (<[Z.to_nat (p_ofs p + i) := 0]> buf)).
    + rewrite insert_insert_eq. do 2 f_equal.
      replace (p_ofs p + (i + 1)) with (p_ofs p + i + 1) by lia.
      replace (n - (i + 1)) with (n - i - 1) by lia.
      apply zero_range_step; lia.
    + lia.
    + by rewrite lookup_insert_eq.
    + lia.
    + rewrite length_insert. lia.
    + done.
Qed.

Lemma world_eta {U} (w : World U) :
  {| w_state := {| s_mem := s_mem (w_state w);
                   s_user := s_user (w_state w) |};
     w_log := w_log w |} = w.
Proof. by destruct w as [[m u] l]. Qed.

Section Wrappers.

Context {U : Type}.
Variable GST_MIXER_GET_CLASS : GstMixer → GstMixerClass U.

(** What the fallback of [gst_mixer_get_volume] computes on a buffer with
    room for the channels. *)
Lemma get_volume_fallback mixer track volumes buf (w : World U) :
  get_volume (GST_MIXER_GET_CLASS mixer) = None →
  pre_sized (s_mem (w_state w)) track volumes buf →
  gst_mixer_get_volume GST_MIXER_GET_CLASS mixer track volumes w =
    Some (tt, {| w_state :=
                   {| s_mem := <[p_block volumes :=
                                   zero_range (p_ofs volumes)
                                     (num_channels track) buf]>
                                 (s_mem (w_state w));
                      s_user := s_user (w_state w) |};
                 w_log := w_log w |}).
Proof.
  intros Hnone (Hm & Hlo & Hhi & Hint). unfold gst_mixer_get_volume.
  rewrite Hnone. simpl.
  rewrite (zero_volumes_fills (Z.to_nat (num_channels track - 0))
             (num_channels track) volumes 0 _ buf);
    [| done | done | lia | done | apply Hint].
  by rewrite Z.add_0_r, Z.sub_0_r.
Qed.

(** Without channels the loop body never runs, whatever [volumes] is. *)
Lemma get_volume_fallback_no_channel mixer track volumes (w : World U) :
  get_volume (GST_MIXER_GET_CLASS mixer) = None →
  num_channels track ≤ 0 →
  gst_mixer_get_volume GST_MIXER_GET_CLASS mixer track volumes w = Some (tt, w).
Proof.
  intros Hnone Hn. unfold gst_mixer_get_volume. rewrite Hnone. simpl.
  rewrite zero_volumes_done by lia. by rewrite world_eta.
Qed.

(** C1: on a device without a get_volume implementation,
    [gst_mixer_get_volume] returns and has written 0 at every index
    0 .. num_channels-1 of the buffer; the buffer keeps its length, and a
    buffer of exactly num_channels cells holds num_channels zeros. *)
Theorem get_volume_unimplemented_fills_zeros
    mixer track volumes buf (w : World U) :
  get_volume (GST_MIXER_GET_CLASS mixer) = None →
  pre_sized (s_mem (w_state w)) track volumes buf →
  ∃ w' buf',
    gst_mixer_get_volume GST_MIXER_GET_CLASS mixer track volumes w = Some (tt, w') ∧
    array_of (s_mem (w_state w')) volumes = Some buf' ∧
    length buf' = length buf ∧
    (∀ i, 0 ≤ i < num_channels track →
          buf' !! Z.to_nat (p_ofs volumes + i) = Some 0) ∧
    (p_ofs volumes = 0 → Z.of_nat (length buf) = num_channels track →
     buf' = replicate (Z.to_nat (num_channels track)) 0).
Proof.
  intros Hnone Hpre. pose proof Hpre as (Hm & Hlo & Hhi & Hint).
  eexists _, (zero_range (p_ofs volumes) (num_channels track) buf).
  split; [by apply get_volume_fallback |].
  split; [unfold array_of; simpl; by rewrite lookup_insert_eq |].
  split; [apply zero_range_length |].
  split.
  - intros i Hi. rewrite zero_range_lookup.
    destruct (lookup_lt_is_Some_2 buf (Z.to_nat (p_ofs volumes + i)))
      as [x ->]; [lia |].
    simpl. by rewrite bool_decide_eq_true_2 by lia.
  - intros Hofs Hlen. apply list_eq. intros j.
    rewrite zero_range_lookup.
    destruct (decide (j < length buf)%nat) as [Hj|Hj].
    + destruct (lookup_lt_is_Some_2 buf j Hj) as [x ->]. simpl.
      rewrite bool_decide_eq_true_2 by lia.
      symmetry. apply lookup_replicate_2. lia.
    + rewrite (lookup_ge_None_2 buf j) by lia. simpl. symmetry.
      apply lookup_ge_None_2. rewrite length_replicate. lia.
Qed.

(** C9: the fallback of [gst_mixer_get_volume] writes the cells of the
    channels 0 .. num_channels-1 and nothing else: every other cell of the
    buffer, every other array, the private state and the record of
    signals are as before; with num_channels 0 or negative nothing at all
    is written and the call returns, whatever the buffer is. *)
Theorem get_volume_unimplemented_writes_channels_only
    mixer track volumes (w : World U) :
  get_volume (GST_MIXER_GET_CLASS mixer) = None →
  (num_channels track ≤ 0 →
   gst_mixer_get_volume GST_MIXER_GET_CLASS mixer track volumes w = Some (tt, w)) ∧
  (∀ buf, pre_sized (s_mem (w_state w)) track volumes buf →
     ∃ w' buf',
       gst_mixer_get_volume GST_MIXER_GET_CLASS mixer track volumes w = Some (tt, w') ∧
       s_mem (w_state w') !! p_block volumes = Some buf' ∧
       length buf' = length buf ∧
       (∀ j : nat,
          ¬ (p_ofs volumes ≤ Z.of_nat j
             < p_ofs volumes + num_channels track) →
          buf' !! j = buf !! j) ∧
       (∀ b, b ≠ p_block volumes →
             s_mem (w_state w') !! b = s_mem (w_state w) !! b) ∧
       s_user (w_state w') = s_user (w_state w) ∧
       w_log w' = w_log w).
Proof.
  intros Hnone. split.
  - by apply get_volume_fallback_no_channel.
  - intros buf Hpre.
    eexists _, (zero_range (p_ofs volumes) (num_channels track) buf).
    split; [by apply get_volume_fallback |]. simpl.
    split; [by rewrite lookup_insert_eq |].
    split; [apply zero_range_length |].
    split; [| split; [| done]].
    + intros j Hj. rewrite zero_range_lookup.
      destruct (buf !! j); [|done]. simpl.
      by rewrite bool_decide_eq_false_2.
    + intros b Hb. by rewrite lookup_insert_ne.
Qed.

(** C2: on a device without a list_tracks implementation,
    [gst_mixer_list_tracks] returns the list with no tracks, and changes
    nothing.  The pointer it returns is NULL, which is that list: no other
    [GList] has no elements. *)
Theorem list_tracks_unimplemented_is_empty mixer (w : World U) :
  list_tracks (GST_MIXER_GET_CLASS mixer) = None →
  ∃ tracks,
    gst_mixer_list_tracks GST_MIXER_GET_CLASS mixer w = Some (tracks, w) ∧
    g_list_elems tracks = [] ∧
    g_list_length tracks = 0%nat ∧
    (∀ l : GList GstMixerTrack, g_list_elems l = [] → l = tracks).
Proof.
  intros Hnone. exists GList_NULL. unfold gst_mixer_list_tracks.
  rewrite Hnone. repeat split. by intros [|d l].
Qed.

(** C3: on a device without a get_option implementation,
    [gst_mixer_get_option] returns the NULL pointer, which is no value
    token: it differs from the pointer to any string. *)
Theorem get_option_unimplemented_is_no_value mixer opts (w : World U) :
  get_option (GST_MIXER_GET_CLASS mixer) = None →
  ∃ value,
    gst_mixer_get_option GST_MIXER_GET_CLASS mixer opts w =
      Some (value, w) ∧
    value = None ∧
    (∀ token : string, value ≠ Some token).
Proof.
  intros Hnone. exists None. unfold gst_mixer_get_option.
  rewrite Hnone. repeat split. by intros token.
Qed.

(** C4: on a device that does not implement the operation, each of
    [gst_mixer_set_volume], [gst_mixer_set_mute], [gst_mixer_set_record]
    and [gst_mixer_set_option] returns and leaves the world as it was: no
    state is changed and nothing is added to the record of signals. *)
Theorem setters_unimplemented_do_nothing mixer (w : World U) :
  (set_volume (GST_MIXER_GET_CLASS mixer) = None →
   ∀ track volumes,
     gst_mixer_set_volume GST_MIXER_GET_CLASS mixer track volumes w =
       Some (tt, w)) ∧
  (set_mute (GST_MIXER_GET_CLASS mixer) = None →
   ∀ track mute,
     gst_mixer_set_mute GST_MIXER_GET_CLASS mixer track mute w =
       Some (tt, w)) ∧
  (set_record (GST_MIXER_GET_CLASS mixer) = None →
   ∀ track record,
     gst_mixer_set_record GST_MIXER_GET_CLASS mixer track record w =
       Some (tt, w)) ∧
  (set_option (GST_MIXER_GET_CLASS mixer) = None →
   ∀ opts value,
     gst_mixer_set_option GST_MIXER_GET_CLASS mixer opts value w =
       Some (tt, w)).
Proof.
  unfold gst_mixer_set_volume, gst_mixer_set_mute, gst_mixer_set_record,
    gst_mixer_set_option.
  repeat split; intros ->; done.
Qed.

(** C5: on a device that implements an operation, the wrapper of that
    operation is the implementation of the device, called with the
    arguments of the caller: the same result, the same effects, and
    nothing of the wrapper's own.  This holds for each of the seven. *)
Theorem wrappers_pass_through mixer :
  (∀ impl, list_tracks (GST_MIXER_GET_CLASS mixer) = Some impl →
     gst_mixer_list_tracks GST_MIXER_GET_CLASS mixer = impl mixer) ∧
  (∀ impl, set_volume (GST_MIXER_GET_CLASS mixer) = Some impl →
     ∀ track volumes,
       gst_mixer_set_volume GST_MIXER_GET_CLASS mixer track volumes =
         impl mixer track volumes) ∧
  (∀ impl, get_volume (GST_MIXER_GET_CLASS mixer) = Some impl →
     ∀ track volumes,
       gst_mixer_get_volume GST_MIXER_GET_CLASS mixer track volumes =
         impl mixer track volumes) ∧
  (∀ impl, set_mute (GST_MIXER_GET_CLASS mixer) = Some impl →
     ∀ track mute,
       gst_mixer_set_mute GST_MIXER_GET_CLASS mixer track mute =
         impl mixer track mute) ∧
  (∀ impl, set_record (GST_MIXER_GET_CLASS mixer) = Some impl →
     ∀ track record,
       gst_mixer_set_record GST_MIXER_GET_CLASS mixer track record =
         impl mixer track record) ∧
  (∀ impl, set_option (GST_MIXER_GET_CLASS mixer) = Some impl →
     ∀ opts value,
       gst_mixer_set_option GST_MIXER_GET_CLASS mixer opts value =
         impl mixer opts value) ∧
  (∀ impl, get_option (GST_MIXER_GET_CLASS mixer) = Some impl →
     ∀ opts,
       gst_mixer_get_option GST_MIXER_GET_CLASS mixer opts =
         impl mixer opts).
Proof.
  unfold gst_mixer_list_tracks, gst_mixer_set_volume, gst_mixer_get_volume,
    gst_mixer_set_mute, gst_mixer_set_record, gst_mixer_set_option,
    gst_mixer_get_option.
  repeat split; intros impl ->; done.
Qed.

(** A series of set calls on a device that implements none of them
    returns and leaves the world as it was. *)
Lemma run_calls_unimplemented mixer calls (w : World U) :
  implements_nothing (GST_MIXER_GET_CLASS mixer) →
  run_calls GST_MIXER_GET_CLASS mixer calls w = Some (tt, w).
Proof.
  intros (_ & Hsv & _ & Hsm & Hsr & Hso & _).
  induction calls as [|c calls IH]; [done |].
  simpl. unfold bind.
  assert (run_call GST_MIXER_GET_CLASS mixer c w = Some (tt, w)) as ->; [|done].
  destruct c; simpl;
    unfold gst_mixer_set_volume, gst_mixer_set_mute, gst_mixer_set_record,
      gst_mixer_set_option;
    by rewrite ?Hsv, ?Hsm, ?Hsr, ?Hso.
Qed.

(** C10: on a device that implements none of the seven operations, the
    reads after any series of set calls are the reads without them: the
    series leaves the world as it was, [gst_mixer_list_tracks] returns the
    empty list, [gst_mixer_get_option] returns NULL and
    [gst_mixer_get_volume] fills the channels with zeros. *)
Theorem unimplemented_reads_ignore_set_calls
    mixer calls track volumes opts buf (w : World U) :
  implements_nothing (GST_MIXER_GET_CLASS mixer) →
  pre_sized (s_mem (w_state w)) track volumes buf →
  run_calls GST_MIXER_GET_CLASS mixer calls w = Some (tt, w) ∧
  (run_calls GST_MIXER_GET_CLASS mixer calls ;;;
   gst_mixer_list_tracks GST_MIXER_GET_CLASS mixer) w =
    Some (GList_NULL, w) ∧
  (run_calls GST_MIXER_GET_CLASS mixer calls ;;;
   gst_mixer_get_option GST_MIXER_GET_CLASS mixer opts) w =
    Some (None, w) ∧
  (run_calls GST_MIXER_GET_CLASS mixer calls ;;;
   gst_mixer_get_volume GST_MIXER_GET_CLASS mixer track volumes) w =
    gst_mixer_get_volume GST_MIXER_GET_CLASS mixer track volumes w ∧
  ∃ w' buf',
    (run_calls GST_MIXER_GET_CLASS mixer calls ;;;
     gst_mixer_get_volume GST_MIXER_GET_CLASS mixer track volumes) w =
      Some (tt, w') ∧
    array_of (s_mem (w_state w')) volumes = Some buf' ∧
    length buf' = length buf ∧
    (∀ i, 0 ≤ i < num_channels track →
          buf' !! Z.to_nat (p_ofs volumes + i) = Some 0).
Proof.
  intros Hnothing Hpre.
  pose proof (run_calls_unimplemented mixer calls w Hnothing) as Hcalls.
  pose proof Hnothing as (Hlt & _ & Hgv & _ & _ & _ & Hgo).
  pose proof Hpre as (Hm & Hlo & Hhi & Hint).
  unfold bind. rewrite !Hcalls.
  split; [done |].
  split; [unfold gst_mixer_list_tracks; by rewrite Hlt |].
  split; [unfold gst_mixer_get_option; by rewrite Hgo |].
  split; [done |].
  eexists _, (zero_range (p_ofs volumes) (num_channels track) buf).
  split; [by apply get_volume_fallback |].
  split; [unfold array_of; simpl; by rewrite lookup_insert_eq |].
  split; [apply zero_range_length |].
  intros i Hi. rewrite zero_range_lookup.
  destruct (lookup_lt_is_Some_2 buf (Z.to_nat (p_ofs volumes + i)))
    as [x ->]; [lia |].
  simpl. by rewrite bool_decide_eq_true_2 by lia.
Qed.

End Wrappers.

(** ** Signal emission *)

Section Emission.

Context {U : Type}.

Lemma signal_canon_twice signal :
  signal_canon (signal_canon signal) = signal_canon signal.
Proof.
  induction signal as [|a s IH]; [done |]. simpl. rewrite IH. f_equal.
  destruct (Ascii.eqb a "_") eqn:E; [done | by rewrite E].
Qed.

Lemma connected_to_canon (c : Connection U) instance signal :
  connected_to c instance (signal_canon signal) =
    connected_to c instance signal.
Proof. unfold connected_to. by rewrite signal_canon_twice. Qed.

Lemma handlers_return_cons (c : Connection U) cs :
  handlers_return (c :: cs) → handlers_return cs.
Proof. intros H c' Hc'. apply H. by apply elem_of_cons; right. Qed.

(** When the connected handlers return, the run returns, and the record
    grows by one invocation per connected handler, in connection order. *)
Lemma run_handlers_returns (cs : list (Connection U)) instance signal args :
  (∀ c, c ∈ cs → connected_to c instance signal = true →
        ∀ s, is_Some (c_handler c instance args s)) →
  ∀ w, ∃ s',
    run_handlers cs instance signal args w =
      Some {| w_state := s';
              w_log := w_log w ++
                deliveries cs instance (signal_canon signal) args |}.
Proof.
  unfold deliveries.
  induction cs as [|c cs IH]; intros Hret w; simpl.
  - exists (w_state w). rewrite app_nil_r. by destruct w.
  - assert (connected_to c instance (signal_canon signal) =
            connected_to c instance signal) as Hcanon.
    { unfold connected_to. f_equal. apply bool_decide_ext.
      assert (signal_canon (signal_canon signal) = signal_canon signal) as ->;
        [|done].
      clear. induction signal as [|a s IHs]; [done |]. simpl.
      rewrite IHs. f_equal. destruct (Ascii.eqb a "_") eqn:E; [done |].
      by rewrite E. }
    rewrite Hcanon.
    assert (∀ c', c' ∈ cs → connected_to c' instance signal = true →
                  ∀ s, is_Some (c_handler c' instance args s)) as Hcs.
    { intros c' Hc'. apply Hret. by apply elem_of_cons; right. }
    destruct (connected_to c instance signal) eqn:Hconn.
    + destruct (Hret c (list_elem_of_here _ _) Hconn (w_state w)) as [s1 ->].
      destruct (IH Hcs {| w_state := s1;
                          w_log := w_log w ++
                            [EvInvoke (c_id c) instance
                               (signal_canon signal) args] |})
        as [s' ->].
      exists s'. simpl. by rewrite <- app_assoc.
    + apply (IH Hcs w).
Qed.

Variable connections : list (Connection U).

(** An emission whose connected handlers return. *)
Lemma g_signal_emit_by_name_returns instance signal args :
  (∀ c, c ∈ connections → connected_to c instance signal = true →
        ∀ s, is_Some (c_handler c instance args s)) →
  ∀ w, ∃ s',
    g_signal_emit_by_name connections instance signal args w =
      Some (tt, {| w_state := s';
                   w_log := w_log w ++
                     emission connections instance
                       (signal_canon signal) args |}).
Proof.
  intros Hret w. unfold g_signal_emit_by_name, emission.
  destruct (run_handlers_returns connections instance signal args Hret
              {| w_state := w_state w;
                 w_log := w_log w ++
                   [EvEmit instance (signal_canon signal) args] |})
    as [s' ->].
  exists s'. simpl. by rewrite <- app_assoc.
Qed.

(** The emission on the mixer and then the emission on the entity, as
    each helper of mixer.c makes them. *)
Lemma emit_on_mixer_then_entity mixer signal_id args entity name args' :
  handlers_return connections →
  ∀ w, ∃ w',
    (g_signal_emit connections mixer signal_id 0 args ;;;
     g_signal_emit_by_name connections entity name args') w =
      Some (tt, w') ∧
    w_log w' = w_log w ++
      emission connections mixer (signal_canon signal_id) args ++
      emission connections entity (signal_canon name) args'.
Proof.
  intros Hret w. unfold bind, g_signal_emit.
  destruct (g_signal_emit_by_name_returns mixer signal_id args
              (λ c Hc _ s, Hret c Hc mixer args s) w) as [s1 ->].
  destruct (g_signal_emit_by_name_returns entity name args'
              (λ c Hc _ s, Hret c Hc entity args' s)
              {| w_state := s1;
                 w_log := w_log w ++
                   emission connections mixer
                     (signal_canon signal_id) args |}) as [s2 ->].
  eexists. split; [done |]. simpl. by rewrite <- app_assoc.
Qed.

(** The record of one notification: both emissions, the mixer's first. *)
Lemma notify_returns mixer n :
  handlers_return connections →
  ∀ w, ∃ w',
    notify connections mixer n w = Some (tt, w') ∧
    w_log w' = w_log w ++
      emission connections mixer (device_signal n) (device_args n) ++
      emission connections (entity_of n) (entity_signal n) (entity_args n).
Proof.
  intros Hret w. destruct n as [track mute|track record|track volumes|opts value].
  - exact (emit_on_mixer_then_entity mixer
             (gst_mixer_signals SIGNAL_MUTE_TOGGLED) _
             (track_obj track) "mute_toggled" _ Hret w).
  - exact (emit_on_mixer_then_entity mixer
             (gst_mixer_signals SIGNAL_RECORD_TOGGLED) _
             (track_obj track) "record_toggled" _ Hret w).
  - exact (emit_on_mixer_then_entity mixer
             (gst_mixer_signals SIGNAL_VOLUME_CHANGED) _
             (track_obj track) "volume_changed" _ Hret w).
  - exact (emit_on_mixer_then_entity mixer
             (gst_mixer_signals SIGNAL_OPTION_CHANGED) _
             (options_obj opts) "value_changed" _ Hret w).
Qed.

(** The starts of emissions among the events of one emission. *)
Lemma emission_starts instance signal args rest :
  List.filter is_emit
    (emission connections instance signal args ++ rest) =
    EvEmit instance signal args :: List.filter is_emit rest.
Proof.
  unfold emission, deliveries. simpl. f_equal.
  rewrite List.filter_app.
  induction (List.filter (λ c, connected_to c instance signal) connections)
    as [|c cs IH]; [done |].
  simpl. apply IH.
Qed.

End Emission.

(** ** The notification helpers *)

Section Notifications.

Context {U : Type}.

(** C6: one call of a notification helper makes exactly two emissions,
    the first on the mixer and the second on the track or options object;
    the handlers of the mixer's signal have all run before the first
    handler of the entity's signal, and all have run when the helper
    returns: the record of the returned world holds them. *)
Theorem notification_delivered_to_device_then_entity
    (connections : list (Connection U)) mixer n (w : World U) :
  handlers_return connections →
  ∃ w',
    notify connections mixer n w = Some (tt, w') ∧
    w_log w' = w_log w ++
      emission connections mixer (device_signal n) (device_args n) ++
      emission connections (entity_of n) (entity_signal n)
        (entity_args n) ∧
    List.filter is_emit
      (emission connections mixer (device_signal n) (device_args n) ++
       emission connections (entity_of n) (entity_signal n)
         (entity_args n)) =
      [EvEmit mixer (device_signal n) (device_args n);
       EvEmit (entity_of n) (entity_signal n) (entity_args n)].
Proof.
  intros Hret. destruct (notify_returns connections mixer n Hret w)
    as (w' & Hrun & Hlog).
  exists w'. split; [done |]. split; [done |].
  rewrite emission_starts.
  rewrite <- (app_nil_r (emission connections (entity_of n) _ _)).
  by rewrite emission_starts.
Qed.

(** C7: two calls of [gst_mixer_mute_toggled] in a row, with the same
    track and the value TRUE, make two broadcasts: the record grows by
    the two emissions of the first call and then by the same two of the
    second, each with the value TRUE.  Nothing is dropped as a repeat. *)
Theorem mute_toggled_twice_not_deduplicated
    (connections : list (Connection U)) mixer track (w : World U) :
  handlers_return connections →
  ∃ w',
    (gst_mixer_mute_toggled connections mixer track true ;;;
     gst_mixer_mute_toggled connections mixer track true) w =
      Some (tt, w') ∧
    w_log w' = w_log w ++
      (emission connections mixer "mute-toggled"
         [GV_track track; GV_boolean true] ++
       emission connections (track_obj track) "mute-toggled"
         [GV_boolean true]) ++
      (emission connections mixer "mute-toggled"
         [GV_track track; GV_boolean true] ++
       emission connections (track_obj track) "mute-toggled"
         [GV_boolean true]) ∧
    List.filter is_emit (drop (length (w_log w)) (w_log w')) =
      [EvEmit mixer "mute-toggled" [GV_track track; GV_boolean true];
       EvEmit (track_obj track) "mute-toggled" [GV_boolean true];
       EvEmit mixer "mute-toggled" [GV_track track; GV_boolean true];
       EvEmit (track_obj track) "mute-toggled" [GV_boolean true]].
Proof.
  intros Hret.
  destruct (notify_returns connections mixer (N_mute_toggled track true)
              Hret w) as (w1 & Hrun1 & Hlog1).
  destruct (notify_returns connections mixer (N_mute_toggled track true)
              Hret w1) as (w2 & Hrun2 & Hlog2).
  cbn [notify] in Hrun1, Hrun2.
  cbn [device_signal device_args entity_of entity_signal entity_args]
    in Hlog1, Hlog2.
  exists w2. unfold bind. rewrite Hrun1, Hrun2.
  split; [done |].
  assert (w_log w2 = w_log w ++
      (emission connections mixer "mute-toggled"
         [GV_track track; GV_boolean true] ++
       emission connections (track_obj track) "mute-toggled"
         [GV_boolean true]) ++
      (emission connections mixer "mute-toggled"
         [GV_track track; GV_boolean true] ++
       emission connections (track_obj track) "mute-toggled"
         [GV_boolean true])) as Hlog.
  { rewrite Hlog2, Hlog1. by rewrite <- !app_assoc. }
  split; [done |].
  rewrite Hlog, drop_app_length.
  rewrite <- !app_assoc. rewrite !emission_starts.
  rewrite <- (app_nil_r (emission connections (track_obj track) _ _)).
  by rewrite emission_starts.
Qed.

(** The run with its record kept is the run: it returns when
    [run_handlers] does, with the same world. *)
Lemma run_handlers_traced_agrees (cs : list (Connection U))
    instance signal args :
  ∀ w, run_handlers cs instance signal args w =
         match run_handlers_traced cs instance signal args (w_state w)
                 (w_log w) with
         | (log, Some s) => Some {| w_state := s; w_log := log |}
         | (_, None) => None
         end.
Proof.
  induction cs as [|c cs IH]; intros w; simpl.
  - by destruct w.
  - destruct (connected_to c instance signal); [|apply IH].
    destruct (c_handler c instance args (w_state w)) as [s1|]; [|done].
    apply (IH {| w_state := s1;
                 w_log := w_log w ++
                   [EvInvoke (c_id c) instance (signal_canon signal)
                      args] |}).
Qed.

Lemma emit_twice_traced_agrees (cs : list (Connection U))
    mixer signal_id args entity name args' (w : World U) :
  (g_signal_emit cs mixer signal_id 0 args ;;;
   g_signal_emit_by_name cs entity name args') w =
    outcome_of_trace
      (emit_twice_traced cs mixer signal_id args entity name args' w).
Proof.
  unfold bind, g_signal_emit, g_signal_emit_by_name, emit_twice_traced,
    emit_traced, outcome_of_trace.
  rewrite run_handlers_traced_agrees. simpl.
  destruct (run_handlers_traced cs mixer signal_id args _ _)
    as [log1 [s1|]]; [|done].
  rewrite run_handlers_traced_agrees. simpl.
  by destruct (run_handlers_traced cs entity name args' _ _)
    as [log2 [s2|]].
Qed.

(** The helpers with their record kept are the helpers. *)
Lemma notify_traced_agrees (cs : list (Connection U)) mixer n
    (w : World U) :
  notify cs mixer n w = outcome_of_trace (notify_traced cs mixer n w).
Proof. destruct n; apply emit_twice_traced_agrees. Qed.

(** The record of a run whose connected handlers return. *)
Lemma run_handlers_traced_returns (cs : list (Connection U))
    instance signal args :
  (∀ c, c ∈ cs → connected_to c instance signal = true →
        ∀ s, is_Some (c_handler c instance args s)) →
  ∀ s log, ∃ s',
    run_handlers_traced cs instance signal args s log =
      (log ++ deliveries cs instance (signal_canon signal) args, Some s').
Proof.
  unfold deliveries.
  induction cs as [|c cs IH]; intros Hret s log; simpl.
  - exists s. by rewrite app_nil_r.
  - rewrite connected_to_canon.
    assert (∀ c', c' ∈ cs → connected_to c' instance signal = true →
                  ∀ s, is_Some (c_handler c' instance args s)) as Hcs.
    { intros c' Hc'. apply Hret. by apply elem_of_cons; right. }
    destruct (connected_to c instance signal) eqn:Hconn; [|by apply IH].
    destruct (Hret c (list_elem_of_here _ _) Hconn s) as [s1 ->].
    destruct (IH Hcs s1
                (log ++ [EvInvoke (c_id c) instance (signal_canon signal)
                           args])) as [s' ->].
    exists s'. simpl. by rewrite <- app_assoc.
Qed.

(** The record of a run that a handler ends: the invocations of the
    connected handlers before it, and its own. *)
Lemma run_handlers_traced_fails (pre post : list (Connection U)) c
    instance signal args :
  handlers_return pre →
  connected_to c instance signal = true →
  (∀ s, c_handler c instance args s = None) →
  ∀ s log,
    run_handlers_traced (pre ++ c :: post) instance signal args s log =
      (log ++ deliveries pre instance (signal_canon signal) args ++
       [EvInvoke (c_id c) instance (signal_canon signal) args], None).
Proof.
  intros Hpre Hconn Hfail. unfold deliveries.
  induction pre as [|c0 pre IH]; intros s log; simpl.
  - by rewrite Hconn, Hfail.
  - specialize (IH (handlers_return_cons _ _ Hpre)).
    rewrite connected_to_canon.
    destruct (connected_to c0 instance signal); [|apply IH].
    destruct (Hpre c0 (list_elem_of_here _ _) instance args s) as [s1 ->].
    rewrite IH. simpl. by rewrite <- app_assoc.
Qed.

(** Two emissions in a row that a handler ends. *)
Lemma emit_twice_traced_fails (pre post : list (Connection U)) c
    mixer signal_id args entity name args' (w : World U) :
  handlers_return pre →
  handlers_return post →
  connected_to c mixer signal_id = true ∨
    connected_to c entity name = true →
  (∀ instance a s, c_handler c instance a s = None) →
  emit_twice_traced (pre ++ c :: post) mixer signal_id args entity name
    args' w =
    (if connected_to c mixer signal_id then
       w_log w ++
       EvEmit mixer (signal_canon signal_id) args ::
       deliveries pre mixer (signal_canon signal_id) args ++
       [EvInvoke (c_id c) mixer (signal_canon signal_id) args]
     else
       w_log w ++
       emission (pre ++ c :: post) mixer (signal_canon signal_id) args ++
       EvEmit entity (signal_canon name) args' ::
       deliveries pre entity (signal_canon name) args' ++
       [EvInvoke (c_id c) entity (signal_canon name) args'],
     None).
Proof.
  intros Hpre Hpost Hconn Hfail. unfold emit_twice_traced, emit_traced.
  destruct (connected_to c mixer signal_id) eqn:Hdev.
  - rewrite (run_handlers_traced_fails pre post c mixer signal_id args)
      by done.
    by rewrite <- app_assoc.
  - destruct Hconn as [Hconn|Hconn]; [done |].
    destruct (run_handlers_traced_returns (pre ++ c :: post) mixer
                signal_id args)
      with (s := w_state w)
           (log := w_log w ++ [EvEmit mixer (signal_canon signal_id) args])
      as [s1 ->].
    { intros c' Hc' Hconn' s.
      apply elem_of_app in Hc' as [Hc'|Hc']; [by apply Hpre |].
      apply elem_of_cons in Hc' as [->|Hc']; [congruence | by apply Hpost]. }
    rewrite (run_handlers_traced_fails pre post c entity name args')
      by done.
    unfold emission. rewrite <- !app_assoc. simpl.
    by rewrite <- ?app_assoc.
Qed.

(** C8, as the code has it: nothing stands between a handler and the
    ones after it.  The handlers are called in the order of the delivery:
    the handlers of the mixer's signal in connection order, then the
    handlers of the entity's signal in connection order.  When the handler
    of a connected observer does not return, and the handlers of the other
    observers do, the observers before it in that order have got the event,
    the record ends with the invocation of the failing handler, so that no
    observer after it in that order gets the event, and the notification
    helper does not return: whatever the caller does after the helper (the
    rest of the device implementation, the return of the set call) is not
    reached. *)
Theorem observer_failure_ends_delivery
    (connections pre post : list (Connection U)) c mixer n (w : World U) :
  connections = pre ++ c :: post →
  handlers_return pre →
  handlers_return post →
  connected_to c mixer (device_signal n) = true ∨
    connected_to c (entity_of n) (entity_signal n) = true →
  (∀ instance args s, c_handler c instance args s = None) →
  notify connections mixer n w = None ∧
  (∀ (A : Type) (rest : unit → M U A),
     bind (notify connections mixer n) rest w = None) ∧
  notify connections mixer n w =
    outcome_of_trace (notify_traced connections mixer n w) ∧
  notify_traced connections mixer n w =
    (record_at_failure pre post c mixer n (w_log w), None).
Proof.
  intros -> Hpre Hpost Hconn Hfail.
  assert (notify_traced (pre ++ c :: post) mixer n w =
          (record_at_failure pre post c mixer n (w_log w), None)) as Htrace.
  { destruct n as [track mute|track record|track volumes|opts value].
    - exact (emit_twice_traced_fails pre post c mixer
               (gst_mixer_signals SIGNAL_MUTE_TOGGLED) _
               (track_obj track) "mute_toggled" _ w Hpre Hpost Hconn Hfail).
    - exact (emit_twice_traced_fails pre post c mixer
               (gst_mixer_signals SIGNAL_RECORD_TOGGLED) _
               (track_obj track) "record_toggled" _ w Hpre Hpost Hconn Hfail).
    - exact (emit_twice_traced_fails pre post c mixer
               (gst_mixer_signals SIGNAL_VOLUME_CHANGED) _
               (track_obj track) "volume_changed" _ w Hpre Hpost Hconn Hfail).
    - exact (emit_twice_traced_fails pre post c mixer
               (gst_mixer_signals SIGNAL_OPTION_CHANGED) _
               (options_obj opts) "value_changed" _ w Hpre Hpost Hconn
               Hfail). }
  assert (notify (pre ++ c :: post) mixer n w = None) as Hnone
    by (by rewrite notify_traced_agrees, Htrace).
  split; [done |].
  split; [intros A rest; unfold bind; by rewrite Hnone |].
  split; [apply notify_traced_agrees | done].
Qed.

End Notifications.

(** ** The statements on the example device *)

Lemma demo_connections_return : handlers_return demo_connections.
Proof.
  intros c Hc instance args s. unfold demo_connections in Hc.
  repeat (apply elem_of_cons in Hc as [->|Hc]); try (by eexists).
  by apply elem_of_nil in Hc.
Qed.

(** The fallback on a buffer of two cells. *)
Example get_volume_bare_class :
  gst_mixer_get_volume (λ _, bare_class) demo_mixer demo_master demo_buf
    (demo_world [5; 6]) = Some (tt, demo_world [0; 0]).
Proof. vm_compute. reflexivity. Qed.

(** The fallback when the buffer is too short for the channels: the store
    to the second cell is outside the array. *)
Example get_volume_bare_class_short_buffer :
  gst_mixer_get_volume (λ _, bare_class) demo_mixer demo_master demo_buf
    (demo_world [5]) = None.
Proof. vm_compute. reflexivity. Qed.

(** The scenario of the specification: the volumes set are the volumes
    got, and one volume-changed is delivered on the mixer and one on the
    track. *)
Example set_then_get_volume :
  (gst_mixer_set_volume (λ _, demo_class demo_connections) demo_mixer
     demo_master demo_buf ;;;
   gst_mixer_get_volume (λ _, demo_class demo_connections) demo_mixer
     demo_master {| p_block := 7; p_ofs := 2 |})
    (demo_world [80; 90; 0; 0]) =
  Some (tt,
        {| w_state :=
             {| s_mem := {[ 7%positive := [80; 90; 80; 90] ]};
                s_user := {| d_volumes := [80; 90]; d_mute := false;
                             d_record := false; d_option := None |} |};
           w_log :=
             [EvEmit 1%positive "volume-changed"
                [GV_track demo_master; GV_pointer demo_buf];
              EvInvoke 3 1%positive "volume-changed"
                [GV_track demo_master; GV_pointer demo_buf];
              EvEmit 2%positive "volume-changed" [GV_pointer demo_buf];
              EvInvoke 4 2%positive "volume-changed"
                [GV_pointer demo_buf]] |}).
Proof. vm_compute. reflexivity. Qed.

(** With well-behaved observers, a set_mute reaches the observer of the
    mixer and then the observer of the track. *)
Example set_mute_reaches_both_observers :
  (λ w', invoked (w_log w')) <$>
    exec (gst_mixer_set_mute (λ _, demo_class demo_connections) demo_mixer
            demo_master true) (demo_world []) =
  Some [1%nat; 2%nat].
Proof. vm_compute. reflexivity. Qed.

(** C8 as stated fails.  Observer A, on the mixer, has a handler that does
    not return; observer B, on the track, is connected after A.  The
    notification does not return, and neither does the set_mute that
    triggered it: the record of the delivery ends with the invocation of
    A, and there is no world in which the call has completed and B has got
    the event. *)
Lemma observer_failure_not_isolated :
  failing_connections = [observer_A; observer_B] ∧
  c_handler observer_A demo_mixer [GV_track demo_master; GV_boolean true]
    (w_state (demo_world [])) = None ∧
  connected_to observer_B (track_obj demo_master) "mute_toggled" = true ∧
  gst_mixer_mute_toggled failing_connections demo_mixer demo_master true
    (demo_world []) = None ∧
  invoked
    (notify_traced failing_connections demo_mixer
       (N_mute_toggled demo_master true) (demo_world [])).1 =
    [c_id observer_A] ∧
  ¬ (∃ w',
       gst_mixer_set_mute (λ _, demo_class failing_connections) demo_mixer
         demo_master true (demo_world []) = Some (tt, w') ∧
       c_id observer_B ∈ invoked (w_log w')).
Proof.
  repeat split.
  intros (w' & Hrun & _). vm_compute in Hrun. discriminate Hrun.
Qed.

(** The failing observer on the track and a well-behaved one on the mixer
    connected after it: the emission on the mixer comes first, so the
    later connection gets the event before the failing handler is called,
    and the helper does not return. *)
Example failing_observer_of_track_after_mixer :
  notify_traced [observer_A_on_track; observer_B_on_mixer] demo_mixer
    (N_mute_toggled demo_master true) (demo_world []) =
    ([EvEmit 1%positive "mute-toggled"
        [GV_track demo_master; GV_boolean true];
      EvInvoke 2 1%positive "mute-toggled"
        [GV_track demo_master; GV_boolean true];
      EvEmit 2%positive "mute-toggled" [GV_boolean true];
      EvInvoke 1 2%positive "mute-toggled" [GV_boolean true]], None) ∧
  notify [observer_A_on_track; observer_B_on_mixer] demo_mixer
    (N_mute_toggled demo_master true) (demo_world []) = None.
Proof. split; reflexivity. Qed.

(** ** The theorems at the example device *)

Lemma get_volume_unimplemented_fills_zeros_witness :
  get_volume bare_class = None ∧
  pre_sized (s_mem (w_state (demo_world [5; 6]))) demo_master demo_buf
    [5; 6] ∧
  ∃ w',
    gst_mixer_get_volume (λ _, bare_class) demo_mixer demo_master demo_buf
      (demo_world [5; 6]) = Some (tt, w') ∧
    array_of (s_mem (w_state w')) demo_buf = Some [0; 0].
Proof.
  assert (get_volume bare_class = None) as Hnone by reflexivity.
  assert (pre_sized (s_mem (w_state (demo_world [5; 6]))) demo_master
            demo_buf [5; 6]) as Hpre
    by (unfold pre_sized, is_gint, G_MININT, G_MAXINT; simpl;
        repeat split; lia).
  split; [exact Hnone |]. split; [exact Hpre |].
  destruct (get_volume_unimplemented_fills_zeros (λ _, bare_class)
              demo_mixer demo_master demo_buf [5; 6] (demo_world [5; 6])
              Hnone Hpre)
    as (w' & buf' & Hrun & Harr & _ & _ & Hexact).
  exists w'. split; [exact Hrun |].
  rewrite Harr. f_equal. apply Hexact; reflexivity.
Defined.

Lemma list_tracks_unimplemented_is_empty_witness :
  list_tracks bare_class = None ∧
  ∃ tracks,
    gst_mixer_list_tracks (λ _, bare_class) demo_mixer (demo_world []) =
      Some (tracks, demo_world []) ∧
    g_list_elems tracks = [].
Proof.
  split; [reflexivity |].
  destruct (list_tracks_unimplemented_is_empty (λ _, bare_class) demo_mixer
              (demo_world []) eq_refl)
    as (tracks & Hrun & Hempty & _).
  exists tracks. split; [exact Hrun | exact Hempty].
Defined.

Lemma get_option_unimplemented_is_no_value_witness :
  get_option bare_class = None ∧
  ∃ value,
    gst_mixer_get_option (λ _, bare_class) demo_mixer demo_source
      (demo_world []) = Some (value, demo_world []) ∧
    value ≠ Some "Line-in"%string.
Proof.
  split; [reflexivity |].
  destruct (get_option_unimplemented_is_no_value (λ _, bare_class)
              demo_mixer demo_source (demo_world []) eq_refl)
    as (value & Hrun & _ & Hdiff).
  exists value. split; [exact Hrun | apply Hdiff].
Defined.

Lemma setters_unimplemented_do_nothing_witness :
  (set_volume bare_class = None ∧ set_mute bare_class = None ∧
   set_record bare_class = None ∧ set_option bare_class = None) ∧
  gst_mixer_set_volume (λ _, bare_class) demo_mixer demo_master demo_buf
    (demo_world [80; 90]) = Some (tt, demo_world [80; 90]) ∧
  gst_mixer_set_mute (λ _, bare_class) demo_mixer demo_master true
    (demo_world [80; 90]) = Some (tt, demo_world [80; 90]) ∧
  gst_mixer_set_record (λ _, bare_class) demo_mixer demo_master true
    (demo_world [80; 90]) = Some (tt, demo_world [80; 90]) ∧
  gst_mixer_set_option (λ _, bare_class) demo_mixer demo_source
    (Some "Line-in"%string) (demo_world [80; 90]) =
    Some (tt, demo_world [80; 90]).
Proof.
  split; [repeat split |].
  destruct (setters_unimplemented_do_nothing (λ _, bare_class) demo_mixer
              (demo_world [80; 90]))
    as (Hvolume & Hmute & Hrecord & Hoption).
  split; [exact (Hvolume eq_refl demo_master demo_buf) |].
  split; [exact (Hmute eq_refl demo_master true) |].
  split; [exact (Hrecord eq_refl demo_master true) |].
  exact (Hoption eq_refl demo_source (Some "Line-in"%string)).
Defined.

Lemma wrappers_pass_through_witness :
  gst_mixer_list_tracks (λ _, demo_class demo_connections) demo_mixer =
    demo_list_tracks demo_mixer ∧
  gst_mixer_set_volume (λ _, demo_class demo_connections) demo_mixer
    demo_master demo_buf =
    demo_set_volume demo_connections demo_mixer demo_master demo_buf ∧
  gst_mixer_get_volume (λ _, demo_class demo_connections) demo_mixer
    demo_master demo_buf =
    demo_get_volume demo_mixer demo_master demo_buf ∧
  gst_mixer_set_mute (λ _, demo_class demo_connections) demo_mixer
    demo_master true =
    demo_set_mute demo_connections demo_mixer demo_master true ∧
  gst_mixer_set_record (λ _, demo_class demo_connections) demo_mixer
    demo_master true =
    demo_set_record demo_connections demo_mixer demo_master true ∧
  gst_mixer_set_option (λ _, demo_class demo_connections) demo_mixer
    demo_source (Some "Line-in"%string) =
    demo_set_option demo_connections demo_mixer demo_source
      (Some "Line-in"%string) ∧
  gst_mixer_get_option (λ _, demo_class demo_connections) demo_mixer
    demo_source =
    demo_get_option demo_mixer demo_source.
Proof.
  destruct (wrappers_pass_through (λ _, demo_class demo_connections)
              demo_mixer)
    as (Hlist & Hsetv & Hgetv & Hmute & Hrecord & Hseto & Hgeto).
  split; [exact (Hlist _ eq_refl) |].
  split; [exact (Hsetv _ eq_refl demo_master demo_buf) |].
  split; [exact (Hgetv _ eq_refl demo_master demo_buf) |].
  split; [exact (Hmute _ eq_refl demo_master true) |].
  split; [exact (Hrecord _ eq_refl demo_master true) |].
  split; [exact (Hseto _ eq_refl demo_source (Some "Line-in"%string)) |].
  exact (Hgeto _ eq_refl demo_source).
Defined.

Lemma notification_delivered_to_device_then_entity_witness :
  handlers_return demo_connections ∧
  ∃ w',
    notify demo_connections demo_mixer (N_mute_toggled demo_master true)
      (demo_world []) = Some (tt, w') ∧
    w_log w' =
      [EvEmit 1%positive "mute-toggled"
         [GV_track demo_master; GV_boolean true];
       EvInvoke 1 1%positive "mute-toggled"
         [GV_track demo_master; GV_boolean true];
       EvEmit 2%positive "mute-toggled" [GV_boolean true];
       EvInvoke 2 2%positive "mute-toggled" [GV_boolean true]].
Proof.
  split; [exact demo_connections_return |].
  destruct (notification_delivered_to_device_then_entity demo_connections
              demo_mixer (N_mute_toggled demo_master true) (demo_world [])
              demo_connections_return)
    as (w' & Hrun & Hlog & _).
  exists w'. split; [exact Hrun |]. rewrite Hlog. reflexivity.
Defined.

Lemma mute_toggled_twice_not_deduplicated_witness :
  handlers_return demo_connections ∧
  ∃ w',
    (gst_mixer_mute_toggled demo_connections demo_mixer demo_master true ;;;
     gst_mixer_mute_toggled demo_connections demo_mixer demo_master true)
      (demo_world []) = Some (tt, w') ∧
    invoked (w_log w') = [1; 2; 1; 2]%nat.
Proof.
  split; [exact demo_connections_return |].
  destruct (mute_toggled_twice_not_deduplicated demo_connections demo_mixer
              demo_master (demo_world []) demo_connections_return)
    as (w' & Hrun & Hlog & _).
  exists w'. split; [exact Hrun |]. rewrite Hlog. reflexivity.
Defined.

Lemma observer_failure_ends_delivery_witness :
  (failing_connections = [] ++ observer_A :: [observer_B] ∧
   handlers_return (U := DemoState) [] ∧
   handlers_return [observer_B] ∧
   connected_to observer_A demo_mixer "mute-toggled" = true ∧
   (∀ instance args s, c_handler observer_A instance args s = None)) ∧
  notify failing_connections demo_mixer (N_mute_toggled demo_master true)
    (demo_world []) = None ∧
  notify_traced failing_connections demo_mixer
    (N_mute_toggled demo_master true) (demo_world []) =
    ([EvEmit 1%positive "mute-toggled"
        [GV_track demo_master; GV_boolean true];
      EvInvoke 1 1%positive "mute-toggled"
        [GV_track demo_master; GV_boolean true]], None).
Proof.
  assert (handlers_return (U := DemoState) []) as Hpre
    by (intros c Hc; by apply elem_of_nil in Hc).
  assert (handlers_return [observer_B]) as Hpost.
  { intros c Hc instance args s. apply elem_of_cons in Hc as [->|Hc].
    - by eexists.
    - by apply elem_of_nil in Hc. }
  split; [repeat split; assumption |].
  destruct (observer_failure_ends_delivery failing_connections []
              [observer_B] observer_A demo_mixer
              (N_mute_toggled demo_master true) (demo_world [])
              eq_refl Hpre Hpost (or_introl eq_refl)
              (λ _ _ _, eq_refl))
    as (Hnone & _ & _ & Htrace).
  split; [exact Hnone |]. rewrite Htrace. reflexivity.
Defined.

Lemma get_volume_unimplemented_writes_channels_only_witness :
  get_volume bare_class = None ∧
  gst_mixer_get_volume (λ _, bare_class) demo_mixer
    {| track_obj := 2%positive; track_label := "Off"; track_flags := 0;
       num_channels := 0 |}
    {| p_block := 9%positive; p_ofs := 0 |} (demo_world [5; 6; 7]) =
    Some (tt, demo_world [5; 6; 7]) ∧
  ∃ w' buf',
    gst_mixer_get_volume (λ _, bare_class) demo_mixer demo_master demo_buf
      (demo_world [5; 6; 7]) = Some (tt, w') ∧
    s_mem (w_state w') !! p_block demo_buf = Some buf' ∧
    buf' !! 2%nat = Some 7.
Proof.
  split; [reflexivity |].
  split.
  - apply (proj1 (get_volume_unimplemented_writes_channels_only
                    (λ _, bare_class) demo_mixer
                    {| track_obj := 2%positive; track_label := "Off";
                       track_flags := 0; num_channels := 0 |}
                    {| p_block := 9%positive; p_ofs := 0 |}
                    (demo_world [5; 6; 7]) eq_refl)).
    simpl. lia.
  - destruct (proj2 (get_volume_unimplemented_writes_channels_only
                       (λ _, bare_class) demo_mixer demo_master demo_buf
                       (demo_world [5; 6; 7]) eq_refl) [5; 6; 7])
      as (w' & buf' & Hrun & Hbuf & _ & Hrest & _).
    + unfold pre_sized, is_gint, G_MININT, G_MAXINT; simpl.
      repeat split; lia.
    + exists w', buf'. split; [exact Hrun |]. split; [exact Hbuf |].
      rewrite (Hrest 2%nat); [reflexivity | simpl; lia].
Defined.

Lemma unimplemented_reads_ignore_set_calls_witness :
  implements_nothing bare_class ∧
  pre_sized (s_mem (w_state (demo_world [80; 90]))) demo_master demo_buf
    [80; 90] ∧
  (run_calls (λ _, bare_class) demo_mixer
     [Call_set_volume demo_master demo_buf; Call_set_mute demo_master true;
      Call_set_option demo_source (Some "Line-in"%string)] ;;;
   gst_mixer_get_option (λ _, bare_class) demo_mixer demo_source)
    (demo_world [80; 90]) = Some (None, demo_world [80; 90]).
Proof.
  assert (implements_nothing bare_class) as Hnothing by (by repeat split).
  assert (pre_sized (s_mem (w_state (demo_world [80; 90]))) demo_master
            demo_buf [80; 90]) as Hpre
    by (unfold pre_sized, is_gint, G_MININT, G_MAXINT; simpl;
        repeat split; lia).
  split; [exact Hnothing |]. split; [exact Hpre |].
  exact (proj1 (proj2 (proj2
    (unimplemented_reads_ignore_set_calls (λ _, bare_class) demo_mixer
       [Call_set_volume demo_master demo_buf; Call_set_mute demo_master true;
        Call_set_option demo_source (Some "Line-in"%string)]
       demo_master demo_buf demo_source [80; 90] (demo_world [80; 90])
       Hnothing Hpre)))).
Defined.

(** * Further properties of the code *)

(** ** The fallback of [gst_mixer_get_volume], at its bounds *)

Lemma zero_range_twice start count buf :
  zero_range start count (zero_range start count buf) =
    zero_range start count buf.
Proof.
  apply list_eq. intros j. rewrite !zero_range_lookup.
  destruct (buf !! j); [|done]. simpl. by case_bool_decide.
Qed.

(** A loop that still has a channel to write and returns has written
    inside an array: the pointer is into an array with room up to the last
    channel. *)
Lemma zero_volumes_room (k : nat) : ∀ n p i m m',
  Z.to_nat (n - i) = k →
  i < n →
  zero_volumes n p i m = Some m' →
  ∃ buf, m !! p_block p = Some buf ∧
         0 ≤ p_ofs p + i ∧
         p_ofs p + n ≤ Z.of_nat (length buf).
Proof.
  induction k as [|k IH]; intros n p i m m' Hk Hlt Hrun; [lia |].
  simp zero_volumes in Hrun.
  destruct (decide (i < n)); [|lia]. simpl in Hrun.
  destruct (store_gint m p i 0) as [m1|] eqn:Hstore; simpl in Hrun;
    [|discriminate].
  destruct (decide (i + 1 ≤ G_MAXINT)); simpl in Hrun; [|discriminate].
  unfold store_gint in Hstore.
  destruct (m !! p_block p) as [buf|] eqn:Hm; [|discriminate].
  case_bool_decide; [|discriminate].
  injection Hstore as <-.
  exists buf. split; [done |]. split; [lia |].
  destruct (decide (i + 1 < n)) as [Hmore|Hlast]; [|lia].
  destruct (IH n p (i + 1) _ m' ltac:(lia) Hmore Hrun)
    as (buf1 & Hm1 & _ & Hroom).
  rewrite lookup_insert_eq in Hm1. injection Hm1 as <-.
  rewrite length_insert in Hroom. lia.
Qed.

Section WrappersAtBounds.

Context {U : Type}.
Variable GST_MIXER_GET_CLASS : GstMixer → GstMixerClass U.

(** When the fallback returns for a track with channels, the caller's
    array had room for them. *)
Lemma get_volume_fallback_room mixer track volumes (w : World U) :
  get_volume (GST_MIXER_GET_CLASS mixer) = None →
  is_gint (num_channels track) →
  0 < num_channels track →
  is_Some (gst_mixer_get_volume GST_MIXER_GET_CLASS mixer track volumes w) →
  ∃ buf, pre_sized (s_mem (w_state w)) track volumes buf.
Proof.
  intros Hnone Hint Hpos [r Hrun]. unfold gst_mixer_get_volume in Hrun.
  rewrite Hnone in Hrun. simpl in Hrun.
  destruct (zero_volumes (num_channels track) volumes 0 (s_mem (w_state w)))
    as [m'|] eqn:Hloop; [|discriminate].
  destruct (zero_volumes_room _ _ _ _ _ _ eq_refl Hpos Hloop)
    as (buf & Hm & Hlo & Hhi).
  exists buf. repeat split; try done; try lia; apply Hint.
Qed.


(** X2: the fallback of [gst_mixer_get_volume] twice in a row is the
    fallback once: the second call finds the zeros of the first and
    leaves the same world, and when the first does not return there is no
    second. *)
Theorem get_volume_fallback_twice mixer track volumes (w : World U) :
  get_volume (GST_MIXER_GET_CLASS mixer) = None →
  is_gint (num_channels track) →
  (gst_mixer_get_volume GST_MIXER_GET_CLASS mixer track volumes ;;;
   gst_mixer_get_volume GST_MIXER_GET_CLASS mixer track volumes) w =
    gst_mixer_get_volume GST_MIXER_GET_CLASS mixer track volumes w.
Proof.
  intros Hnone Hint. unfold bind.
  destruct (decide (num_channels track ≤ 0)) as [Hzero|Hpos].
  { rewrite (get_volume_fallback_no_channel _ mixer track volumes w) by done.
    by rewrite get_volume_fallback_no_channel. }
  destruct (gst_mixer_get_volume GST_MIXER_GET_CLASS mixer track volumes w)
    as [[[] w1]|] eqn:Hrun; [|done].
  destruct (get_volume_fallback_room mixer track volumes w)
    as [buf Hpre]; [done | done | lia | by rewrite Hrun |].
  rewrite (get_volume_fallback _ mixer track volumes buf) in Hrun by done.
  injection Hrun as <-.
  pose proof Hpre as (Hm & Hlo & Hhi & _).
  rewrite (get_volume_fallback _ mixer track volumes
             (zero_range (p_ofs volumes) (num_channels track) buf)).
  - simpl. by rewrite insert_insert_eq, zero_range_twice.
  - done.
  - repeat split; simpl; try done; try apply Hint.
    + by rewrite lookup_insert_eq.
    + by rewrite zero_range_length.
Qed.

End WrappersAtBounds.

(** ** The notification helpers and the observers *)

Section Observers.

Context {U : Type}.

(** The state a run of handlers leaves is the handlers' doing alone. *)
Lemma run_handlers_state (cs : list (Connection U)) instance signal args :
  ∀ w, w_state <$> run_handlers cs instance signal args w =
         apply_handlers cs instance signal args (w_state w).
Proof.
  induction cs as [|c cs IH]; intros w; simpl; [done |].
  destruct (connected_to c instance signal); [|apply IH].
  destruct (c_handler c instance args (w_state w)) as [s1|]; [|done].
  by rewrite IH.
Qed.

(** The record a run of handlers leaves, when it returns. *)
Lemma run_handlers_record (cs : list (Connection U)) instance signal args :
  ∀ w w', run_handlers cs instance signal args w = Some w' →
          w_log w' = w_log w ++
            deliveries cs instance (signal_canon signal) args.
Proof.
  unfold deliveries.
  induction cs as [|c cs IH]; intros w w' Hrun; simpl in *.
  - injection Hrun as <-. by rewrite app_nil_r.
  - rewrite connected_to_canon.
    destruct (connected_to c instance signal); [|by apply IH].
    destruct (c_handler c instance args (w_state w)) as [s1|];
      [|discriminate].
    rewrite (IH _ _ Hrun). simpl. by rewrite <- app_assoc.
Qed.

(** A connection to another signal, or to another instance, has no part
    in a run. *)
Lemma run_handlers_without (pre post : list (Connection U)) c
    instance signal args :
  connected_to c instance signal = false →
  ∀ w, run_handlers (pre ++ c :: post) instance signal args w =
         run_handlers (pre ++ post) instance signal args w.
Proof.
  intros Hnot. induction pre as [|c0 pre IH]; intros w; simpl.
  - by rewrite Hnot.
  - destruct (connected_to c0 instance signal); [|apply IH].
    destruct (c_handler c0 instance args (w_state w)); [apply IH | done].
Qed.

Lemma run_handlers_filter (q : Connection U → bool)
    (cs : list (Connection U)) instance signal args :
  (∀ c, connected_to c instance signal = true → q c = true) →
  ∀ w, run_handlers (List.filter q cs) instance signal args w =
         run_handlers cs instance signal args w.
Proof.
  intros Hq. induction cs as [|c cs IH]; intros w; simpl; [done |].
  destruct (connected_to c instance signal) eqn:Hconn.
  - rewrite (Hq c Hconn). simpl. rewrite Hconn.
    destruct (c_handler c instance args (w_state w)); [apply IH | done].
  - destruct (q c); simpl; [|apply IH]. rewrite Hconn. apply IH.
Qed.

Lemma apply_handlers_canon (cs : list (Connection U)) instance signal args :
  ∀ s, apply_handlers cs instance (signal_canon signal) args s =
         apply_handlers cs instance signal args s.
Proof.
  induction cs as [|c cs IH]; intros s; simpl; [done |].
  rewrite connected_to_canon.
  destruct (connected_to c instance signal); [|apply IH].
  destruct (c_handler c instance args s); [apply IH | done].
Qed.

(** The two emissions of a helper, seen from the state. *)
Lemma emit_on_mixer_then_entity_state (cs : list (Connection U))
    mixer signal_id args entity name args' (w : World U) :
  w_state <$> exec (g_signal_emit cs mixer signal_id 0 args ;;;
                    g_signal_emit_by_name cs entity name args') w =
    apply_handlers cs mixer (signal_canon signal_id) args (w_state w) ≫=
    apply_handlers cs entity (signal_canon name) args'.
Proof.
  rewrite apply_handlers_canon.
  transitivity (apply_handlers cs mixer signal_id args (w_state w) ≫=
                apply_handlers cs entity name args').
  2: { destruct (apply_handlers cs mixer signal_id args (w_state w));
         simpl; [|done].
       by rewrite apply_handlers_canon. }
  unfold exec, bind, g_signal_emit, g_signal_emit_by_name.
  pose proof (run_handlers_state cs mixer signal_id args
                {| w_state := w_state w;
                   w_log := w_log w ++
                     [EvEmit mixer (signal_canon signal_id) args] |})
    as Hfirst.
  simpl in Hfirst. rewrite <- Hfirst.
  destruct (run_handlers cs mixer signal_id args _) as [w1|]; [|done].
  simpl.
  pose proof (run_handlers_state cs entity name args'
                {| w_state := w_state w1;
                   w_log := w_log w1 ++
                     [EvEmit entity (signal_canon name) args'] |})
    as Hsecond.
  simpl in Hsecond. rewrite <- Hsecond.
  by destruct (run_handlers cs entity name args' _).
Qed.

(** The two emissions of a helper, seen from the record. *)
Lemma emit_on_mixer_then_entity_record (cs : list (Connection U))
    mixer signal_id args entity name args' (w w' : World U) :
  (g_signal_emit cs mixer signal_id 0 args ;;;
   g_signal_emit_by_name cs entity name args') w = Some (tt, w') →
  w_log w' = w_log w ++
    emission cs mixer (signal_canon signal_id) args ++
    emission cs entity (signal_canon name) args'.
Proof.
  unfold bind, g_signal_emit, g_signal_emit_by_name, emission.
  destruct (run_handlers cs mixer signal_id args _) as [w1|] eqn:Hfirst;
    [|discriminate].
  destruct (run_handlers cs entity name args' _) as [w2|] eqn:Hsecond;
    [|discriminate].
  intros [= <-].
  rewrite (run_handlers_record _ _ _ _ _ _ Hsecond). simpl.
  rewrite (run_handlers_record _ _ _ _ _ _ Hfirst). simpl.
  by rewrite <- !app_assoc.
Qed.

(** The two emissions of a helper, without a connection that is to
    neither signal. *)
Lemma emit_on_mixer_then_entity_without (pre post : list (Connection U)) c
    mixer signal_id args entity name args' (w : World U) :
  connected_to c mixer signal_id = false →
  connected_to c entity name = false →
  (g_signal_emit (pre ++ c :: post) mixer signal_id 0 args ;;;
   g_signal_emit_by_name (pre ++ c :: post) entity name args') w =
  (g_signal_emit (pre ++ post) mixer signal_id 0 args ;;;
   g_signal_emit_by_name (pre ++ post) entity name args') w.
Proof.
  intros Hdev Hent. unfold bind, g_signal_emit, g_signal_emit_by_name.
  rewrite (run_handlers_without pre post c mixer signal_id args Hdev).
  destruct (run_handlers (pre ++ post) mixer signal_id args _) as [w1|];
    [|done].
  by rewrite (run_handlers_without pre post c entity name args' Hent).
Qed.

Lemma notify_without (pre post : list (Connection U)) c mixer n
    (w : World U) :
  connected_to c mixer (device_signal n) = false →
  connected_to c (entity_of n) (entity_signal n) = false →
  notify (pre ++ c :: post) mixer n w = notify (pre ++ post) mixer n w.
Proof.
  intros Hdev Hent.
  destruct n as [track mute|track record|track volumes|opts value].
  - exact (emit_on_mixer_then_entity_without pre post c mixer
             (gst_mixer_signals SIGNAL_MUTE_TOGGLED) _
             (track_obj track) "mute_toggled" _ w Hdev Hent).
  - exact (emit_on_mixer_then_entity_without pre post c mixer
             (gst_mixer_signals SIGNAL_RECORD_TOGGLED) _
             (track_obj track) "record_toggled" _ w Hdev Hent).
  - exact (emit_on_mixer_then_entity_without pre post c mixer
             (gst_mixer_signals SIGNAL_VOLUME_CHANGED) _
             (track_obj track) "volume_changed" _ w Hdev Hent).
  - exact (emit_on_mixer_then_entity_without pre post c mixer
             (gst_mixer_signals SIGNAL_OPTION_CHANGED) _
             (options_obj opts) "value_changed" _ w Hdev Hent).
Qed.

Lemma notify_record (cs : list (Connection U)) mixer n (w w' : World U) :
  notify cs mixer n w = Some (tt, w') →
  w_log w' = w_log w ++
    emission cs mixer (device_signal n) (device_args n) ++
    emission cs (entity_of n) (entity_signal n) (entity_args n).
Proof.
  destruct n as [track mute|track record|track volumes|opts value].
  - exact (emit_on_mixer_then_entity_record cs mixer
             (gst_mixer_signals SIGNAL_MUTE_TOGGLED) _
             (track_obj track) "mute_toggled" _ w w').
  - exact (emit_on_mixer_then_entity_record cs mixer
             (gst_mixer_signals SIGNAL_RECORD_TOGGLED) _
             (track_obj track) "record_toggled" _ w w').
  - exact (emit_on_mixer_then_entity_record cs mixer
             (gst_mixer_signals SIGNAL_VOLUME_CHANGED) _
             (track_obj track) "volume_changed" _ w w').
  - exact (emit_on_mixer_then_entity_record cs mixer
             (gst_mixer_signals SIGNAL_OPTION_CHANGED) _
             (options_obj opts) "value_changed" _ w w').
Qed.

(** X3: what a notification helper does to the state is what the handlers
    of the mixer's signal do, in connection order, and then what the
    handlers of the entity's signal do on the state those left; a handler
    that does not return ends it there.  The observers of the track or
    options object act on the state the observers of the mixer produced. *)
Theorem notification_state_is_handlers_in_order
    (connections : list (Connection U)) mixer n (w : World U) :
  w_state <$> exec (notify connections mixer n) w =
    apply_handlers connections mixer (device_signal n) (device_args n)
      (w_state w) ≫=
    apply_handlers connections (entity_of n) (entity_signal n)
      (entity_args n).
Proof.
  destruct n as [track mute|track record|track volumes|opts value].
  - exact (emit_on_mixer_then_entity_state connections mixer
             (gst_mixer_signals SIGNAL_MUTE_TOGGLED) _
             (track_obj track) "mute_toggled" _ w).
  - exact (emit_on_mixer_then_entity_state connections mixer
             (gst_mixer_signals SIGNAL_RECORD_TOGGLED) _
             (track_obj track) "record_toggled" _ w).
  - exact (emit_on_mixer_then_entity_state connections mixer
             (gst_mixer_signals SIGNAL_VOLUME_CHANGED) _
             (track_obj track) "volume_changed" _ w).
  - exact (emit_on_mixer_then_entity_state connections mixer
             (gst_mixer_signals SIGNAL_OPTION_CHANGED) _
             (options_obj opts) "value_changed" _ w).
Qed.

(** X4: a notification helper has to do only with the connections to the
    mixer's signal and to the entity's signal: with every other connection
    taken away the helper gives the same result, also when one of those
    has a handler that would not return. *)
Theorem notification_ignores_other_connections
    (connections : list (Connection U)) mixer n (w : World U) :
  notify (List.filter (concerned mixer n) connections) mixer n w =
    notify connections mixer n w.
Proof.
  assert (∀ signal_id args name args',
            signal_canon signal_id = device_signal n →
            signal_canon name = entity_signal n →
            (g_signal_emit (List.filter (concerned mixer n) connections)
               mixer signal_id 0 args ;;;
             g_signal_emit_by_name
               (List.filter (concerned mixer n) connections)
               (entity_of n) name args') w =
            (g_signal_emit connections mixer signal_id 0 args ;;;
             g_signal_emit_by_name connections (entity_of n) name args') w)
    as Hboth.
  { intros signal_id args name args' Hdev Hent.
    unfold bind, g_signal_emit, g_signal_emit_by_name.
    rewrite run_handlers_filter.
    - destruct (run_handlers connections mixer signal_id args _) as [w1|];
        [|done].
      rewrite run_handlers_filter; [done |].
      intros c Hc. unfold concerned.
      rewrite <- Hent, connected_to_canon, Hc. apply orb_true_r.
    - intros c Hc. unfold concerned.
      by rewrite <- Hdev, connected_to_canon, Hc. }
  destruct n as [track mute|track record|track volumes|opts value];
    by apply Hboth.
Qed.

(** X5: whenever a notification helper returns, the record has grown by
    exactly its two emissions, the mixer's first, each followed by the
    invocations of its connected handlers in connection order; nothing of
    the earlier record is changed.  No handler needs to return on states
    the call did not reach. *)
Theorem notification_record_when_returned
    (connections : list (Connection U)) mixer n (w w' : World U) :
  notify connections mixer n w = Some (tt, w') →
  w_log w' = w_log w ++
    emission connections mixer (device_signal n) (device_args n) ++
    emission connections (entity_of n) (entity_signal n) (entity_args n).
Proof. apply notify_record. Qed.

(** X6: [gst_mixer_option_changed] emits the signal value_changed on the
    options object, not option_changed: a handler connected to the
    option-changed signal of the options object (the options object not
    being the mixer itself) is never run by the helper, which gives the
    same result without that connection. *)
Theorem option_changed_skips_option_changed_of_options
    (pre post : list (Connection U)) c mixer opts value (w : World U) :
  c_instance c = options_obj opts →
  options_obj opts ≠ mixer →
  signal_canon (c_signal c) = "option-changed"%string →
  gst_mixer_option_changed (pre ++ c :: post) mixer opts value w =
    gst_mixer_option_changed (pre ++ post) mixer opts value w.
Proof.
  intros Hinst Hother Hname.
  apply (notify_without pre post c mixer (N_option_changed opts value) w).
  - unfold connected_to. rewrite bool_decide_eq_false_2; [done | congruence].
  - unfold connected_to. rewrite Hname. apply andb_false_r.
Qed.

(** X7: the helpers do not cross: a connection to a signal of another
    kind of notification, on whatever instance and in either spelling, has
    no part in a notification. *)
Theorem notification_kinds_do_not_cross
    (pre post : list (Connection U)) c mixer n n' (w : World U) :
  notification_signal n ≠ notification_signal n' →
  signal_canon (c_signal c) = device_signal n' ∨
    signal_canon (c_signal c) = entity_signal n' →
  notify (pre ++ c :: post) mixer n w = notify (pre ++ post) mixer n w.
Proof.
  intros Hkind Hname.
  apply notify_without; unfold connected_to;
    destruct Hname as [-> | ->]; destruct n, n'; try done;
    apply andb_false_r.
Qed.

End Observers.

(** ** Type and signal registration *)

Section RegistrationFacts.

Context {GLib : Type}.
Variable g_type_register_static :
  GType → string → GTypeInfo → Z → GLib → GType * GLib.
Variable g_type_interface_add_prerequisite : GType → GType → GLib → GLib.
Variable g_signal_new : SignalSpec → GLib → Z * GLib.
Variable G_TYPE_INTERFACE G_TYPE_NONE G_TYPE_BOOLEAN G_TYPE_POINTER
  G_TYPE_STRING : GType.
Variable GST_TYPE_IMPLEMENTS_INTERFACE GST_TYPE_MIXER GST_TYPE_MIXER_TRACK
  GST_TYPE_MIXER_OPTIONS : GType.
Variable sizeof_GstMixerClass : Z.

(** A call of [gst_mixer_get_type] that finds the type registered returns
    it and changes nothing. *)
Lemma get_type_registered (t : TypeWorld GLib) :
  gst_mixer_type (t_statics t) ≠ 0 →
  gst_mixer_get_type g_type_register_static
    g_type_interface_add_prerequisite G_TYPE_INTERFACE
    GST_TYPE_IMPLEMENTS_INTERFACE sizeof_GstMixerClass t =
    (gst_mixer_type (t_statics t), t).
Proof.
  intros Hreg. unfold gst_mixer_get_type.
  by rewrite bool_decide_eq_false_2.
Qed.

(** The type a call returns is the type the static variable holds after
    it. *)
Lemma get_type_stores_result (t t1 : TypeWorld GLib) type :
  gst_mixer_get_type g_type_register_static
    g_type_interface_add_prerequisite G_TYPE_INTERFACE
    GST_TYPE_IMPLEMENTS_INTERFACE sizeof_GstMixerClass t = (type, t1) →
  gst_mixer_type (t_statics t1) = type.
Proof.
  unfold gst_mixer_get_type. case_bool_decide as Hzero.
  - destruct (g_type_register_static _ _ _ _ _) as [ty g1].
    by intros [= <- <-].
  - by intros [= <- <-].
Qed.

(** X8: once a call of [gst_mixer_get_type] has returned a type other
    than 0, every later call returns that same type and changes neither the
    static variables nor GLib's type system: the interface is registered,
    and given its prerequisite, once. *)
Theorem get_type_registers_once (t t1 : TypeWorld GLib) type (k : nat) :
  gst_mixer_get_type g_type_register_static
    g_type_interface_add_prerequisite G_TYPE_INTERFACE
    GST_TYPE_IMPLEMENTS_INTERFACE sizeof_GstMixerClass t = (type, t1) →
  type ≠ 0 →
  get_type_calls g_type_register_static g_type_interface_add_prerequisite
    G_TYPE_INTERFACE GST_TYPE_IMPLEMENTS_INTERFACE sizeof_GstMixerClass
    k t1 = (replicate k type, t1).
Proof.
  intros Hcall Hreg. apply get_type_stores_result in Hcall.
  induction k as [|k IH]; simpl; [done |].
  rewrite get_type_registered by congruence.
  by rewrite IH, Hcall.
Qed.

(** X9: a call of [gst_mixer_get_type] whose registration fails (GLib
    returns 0) leaves the static variable at 0 and has still called
    [g_type_interface_add_prerequisite], for the type 0: the result of the
    registration is not checked, and the next call registers again. *)
Theorem get_type_failure_not_latched (t : TypeWorld GLib) g1 :
  gst_mixer_type (t_statics t) = 0 →
  g_type_register_static G_TYPE_INTERFACE "GstMixer"
    (gst_mixer_info sizeof_GstMixerClass) 0 (t_glib t) = (0, g1) →
  ∃ t1,
    gst_mixer_get_type g_type_register_static
      g_type_interface_add_prerequisite G_TYPE_INTERFACE
      GST_TYPE_IMPLEMENTS_INTERFACE sizeof_GstMixerClass t = (0, t1) ∧
    gst_mixer_type (t_statics t1) = 0 ∧
    t_glib t1 =
      g_type_interface_add_prerequisite 0 GST_TYPE_IMPLEMENTS_INTERFACE g1 ∧
    fst (gst_mixer_get_type g_type_register_static
           g_type_interface_add_prerequisite G_TYPE_INTERFACE
           GST_TYPE_IMPLEMENTS_INTERFACE sizeof_GstMixerClass t1) =
      fst (g_type_register_static G_TYPE_INTERFACE "GstMixer"
             (gst_mixer_info sizeof_GstMixerClass) 0 (t_glib t1)).
Proof.
  intros Hzero Hfail. eexists. unfold gst_mixer_get_type at 1.
  rewrite bool_decide_eq_true_2 by done. rewrite Hfail.
  split; [done |]. split; [done |]. split; [done |].
  unfold gst_mixer_get_type. simpl.
  destruct (g_type_register_static G_TYPE_INTERFACE "GstMixer" _ 0
              (g_type_interface_add_prerequisite 0 _ g1)) as [ty g2].
  reflexivity.
Qed.

(** A run of the guarded block raises the flag. *)
Lemma class_init_signals_initialized (t : TypeWorld GLib) :
  initialized
    (t_statics
       (gst_mixer_class_init_signals g_signal_new G_TYPE_NONE G_TYPE_BOOLEAN
          G_TYPE_POINTER G_TYPE_STRING GST_TYPE_MIXER GST_TYPE_MIXER_TRACK
          GST_TYPE_MIXER_OPTIONS t)) = true.
Proof.
  unfold gst_mixer_class_init_signals.
  by destruct (initialized (t_statics t)) eqn:E.
Qed.

Lemma class_init_signals_twice (t : TypeWorld GLib) :
  gst_mixer_class_init_signals g_signal_new G_TYPE_NONE G_TYPE_BOOLEAN
    G_TYPE_POINTER G_TYPE_STRING GST_TYPE_MIXER GST_TYPE_MIXER_TRACK
    GST_TYPE_MIXER_OPTIONS
    (gst_mixer_class_init_signals g_signal_new G_TYPE_NONE G_TYPE_BOOLEAN
       G_TYPE_POINTER G_TYPE_STRING GST_TYPE_MIXER GST_TYPE_MIXER_TRACK
       GST_TYPE_MIXER_OPTIONS t) =
  gst_mixer_class_init_signals g_signal_new G_TYPE_NONE G_TYPE_BOOLEAN
    G_TYPE_POINTER G_TYPE_STRING GST_TYPE_MIXER GST_TYPE_MIXER_TRACK
    GST_TYPE_MIXER_OPTIONS t.
Proof.
  unfold gst_mixer_class_init_signals at 1.
  by rewrite class_init_signals_initialized.
Qed.

Lemma class_init_runs_first (k : nat) : ∀ t : TypeWorld GLib,
  class_init_runs g_signal_new G_TYPE_NONE G_TYPE_BOOLEAN G_TYPE_POINTER
    G_TYPE_STRING GST_TYPE_MIXER GST_TYPE_MIXER_TRACK GST_TYPE_MIXER_OPTIONS
    (S k) t =
  gst_mixer_class_init_signals g_signal_new G_TYPE_NONE G_TYPE_BOOLEAN
    G_TYPE_POINTER G_TYPE_STRING GST_TYPE_MIXER GST_TYPE_MIXER_TRACK
    GST_TYPE_MIXER_OPTIONS t.
Proof.
  induction k as [|k IH]; intros t; [done |].
  change (class_init_runs g_signal_new G_TYPE_NONE G_TYPE_BOOLEAN
            G_TYPE_POINTER G_TYPE_STRING GST_TYPE_MIXER GST_TYPE_MIXER_TRACK
            GST_TYPE_MIXER_OPTIONS (S k)
            (gst_mixer_class_init_signals g_signal_new G_TYPE_NONE
               G_TYPE_BOOLEAN G_TYPE_POINTER G_TYPE_STRING GST_TYPE_MIXER
               GST_TYPE_MIXER_TRACK GST_TYPE_MIXER_OPTIONS t) =
          gst_mixer_class_init_signals g_signal_new G_TYPE_NONE
            G_TYPE_BOOLEAN G_TYPE_POINTER G_TYPE_STRING GST_TYPE_MIXER
            GST_TYPE_MIXER_TRACK GST_TYPE_MIXER_OPTIONS t).
  rewrite IH. apply class_init_signals_twice.
Qed.

(** X10: however many classes run [gst_mixer_class_init], the signals
    are registered by the first run only: any number of runs, one or more,
    leaves the static variables and GLib's type system as the first run
    did, with the flag raised. *)
Theorem class_init_registers_once (k : nat) (t : TypeWorld GLib) :
  class_init_runs g_signal_new G_TYPE_NONE G_TYPE_BOOLEAN G_TYPE_POINTER
    G_TYPE_STRING GST_TYPE_MIXER GST_TYPE_MIXER_TRACK GST_TYPE_MIXER_OPTIONS
    (S k) t =
    gst_mixer_class_init_signals g_signal_new G_TYPE_NONE G_TYPE_BOOLEAN
      G_TYPE_POINTER G_TYPE_STRING GST_TYPE_MIXER GST_TYPE_MIXER_TRACK
      GST_TYPE_MIXER_OPTIONS t ∧
  initialized
    (t_statics
       (class_init_runs g_signal_new G_TYPE_NONE G_TYPE_BOOLEAN
          G_TYPE_POINTER G_TYPE_STRING GST_TYPE_MIXER GST_TYPE_MIXER_TRACK
          GST_TYPE_MIXER_OPTIONS (S k) t)) = true.
Proof.
  rewrite class_init_runs_first. split; [done |].
  apply class_init_signals_initialized.
Qed.

(** What GLib tells of a signal id: [g_signal_name]. *)
Variable g_signal_name : GLib → Z → option string.

(** A registered signal has the name it was registered under, and keeps
    it when further signals are registered. *)
Hypothesis g_signal_new_names : ∀ spec g,
  g_signal_name (g_signal_new spec g).2 (g_signal_new spec g).1 =
    Some (sig_name spec).
Hypothesis g_signal_new_keeps : ∀ spec g id name,
  g_signal_name g id = Some name →
  g_signal_name (g_signal_new spec g).2 id = Some name.

Lemma register_signal_names_entry (t : TypeWorld GLib) s :
  entry_named g_signal_name
    (register_signal g_signal_new G_TYPE_NONE G_TYPE_BOOLEAN G_TYPE_POINTER
       G_TYPE_STRING GST_TYPE_MIXER GST_TYPE_MIXER_TRACK
       GST_TYPE_MIXER_OPTIONS s t) s.
Proof.
  unfold entry_named, register_signal.
  pose proof (g_signal_new_names
                (mixer_signal_spec G_TYPE_NONE G_TYPE_BOOLEAN G_TYPE_POINTER
                   G_TYPE_STRING GST_TYPE_MIXER GST_TYPE_MIXER_TRACK
                   GST_TYPE_MIXER_OPTIONS s) (t_glib t)) as Hnew.
  destruct (g_signal_new _ (t_glib t)) as [id g]. simpl in *.
  unfold set_signal_id. rewrite decide_True by done.
  rewrite Hnew. by destruct s.
Qed.

Lemma register_signal_keeps_entry (t : TypeWorld GLib) s s' :
  entry_named g_signal_name t s' →
  entry_named g_signal_name
    (register_signal g_signal_new G_TYPE_NONE G_TYPE_BOOLEAN G_TYPE_POINTER
       G_TYPE_STRING GST_TYPE_MIXER GST_TYPE_MIXER_TRACK
       GST_TYPE_MIXER_OPTIONS s t) s'.
Proof.
  intros Hnamed. destruct (decide (s' = s)) as [->|Hne].
  { apply register_signal_names_entry. }
  unfold entry_named, register_signal in *.
  pose proof (g_signal_new_keeps
                (mixer_signal_spec G_TYPE_NONE G_TYPE_BOOLEAN G_TYPE_POINTER
                   G_TYPE_STRING GST_TYPE_MIXER GST_TYPE_MIXER_TRACK
                   GST_TYPE_MIXER_OPTIONS s) (t_glib t) _ _ Hnamed) as Hkeep.
  destruct (g_signal_new _ (t_glib t)) as [id g]. simpl in *.
  unfold set_signal_id. by rewrite decide_False by done.
Qed.

(** X11: after [gst_mixer_class_init] has run, once or more, from statics
    that were not initialised, each entry of [gst_mixer_signals[]] holds an
    id that GLib knows under the name of that entry: mute-toggled for
    SIGNAL_MUTE_TOGGLED, record-toggled for SIGNAL_RECORD_TOGGLED,
    volume-changed for SIGNAL_VOLUME_CHANGED, option-changed for
    SIGNAL_OPTION_CHANGED, although the source registers record-toggled
    first and the enumeration starts with SIGNAL_MUTE_TOGGLED. *)
Theorem class_init_names_every_entry (k : nat) (t : TypeWorld GLib) s :
  initialized (t_statics t) = false →
  g_signal_name
    (t_glib
       (class_init_runs g_signal_new G_TYPE_NONE G_TYPE_BOOLEAN
          G_TYPE_POINTER G_TYPE_STRING GST_TYPE_MIXER GST_TYPE_MIXER_TRACK
          GST_TYPE_MIXER_OPTIONS (S k) t))
    (signal_ids
       (t_statics
          (class_init_runs g_signal_new G_TYPE_NONE G_TYPE_BOOLEAN
             G_TYPE_POINTER G_TYPE_STRING GST_TYPE_MIXER
             GST_TYPE_MIXER_TRACK GST_TYPE_MIXER_OPTIONS (S k) t)) s) =
    Some (gst_mixer_signals s).
Proof.
  intros Hfresh.
  rewrite class_init_runs_first.
  unfold gst_mixer_class_init_signals. rewrite Hfresh. simpl.
  change (entry_named g_signal_name
            (register_signal g_signal_new G_TYPE_NONE G_TYPE_BOOLEAN
               G_TYPE_POINTER G_TYPE_STRING GST_TYPE_MIXER
               GST_TYPE_MIXER_TRACK GST_TYPE_MIXER_OPTIONS
               SIGNAL_OPTION_CHANGED
               (register_signal g_signal_new G_TYPE_NONE G_TYPE_BOOLEAN
                  G_TYPE_POINTER G_TYPE_STRING GST_TYPE_MIXER
                  GST_TYPE_MIXER_TRACK GST_TYPE_MIXER_OPTIONS
                  SIGNAL_VOLUME_CHANGED
                  (register_signal g_signal_new G_TYPE_NONE G_TYPE_BOOLEAN
                     G_TYPE_POINTER G_TYPE_STRING GST_TYPE_MIXER
                     GST_TYPE_MIXER_TRACK GST_TYPE_MIXER_OPTIONS
                     SIGNAL_MUTE_TOGGLED
                     (register_signal g_signal_new G_TYPE_NONE
                        G_TYPE_BOOLEAN G_TYPE_POINTER G_TYPE_STRING
                        GST_TYPE_MIXER GST_TYPE_MIXER_TRACK
                        GST_TYPE_MIXER_OPTIONS SIGNAL_RECORD_TOGGLED t))))
            s).
  destruct s.
  - apply register_signal_keeps_entry, register_signal_keeps_entry,
      register_signal_names_entry.
  - apply register_signal_keeps_entry, register_signal_keeps_entry,
      register_signal_keeps_entry, register_signal_names_entry.
  - apply register_signal_keeps_entry, register_signal_names_entry.
  - apply register_signal_names_entry.
Qed.

End RegistrationFacts.

Section EmissionArguments.

Context {U : Type}.
Variable G_TYPE_NONE G_TYPE_BOOLEAN G_TYPE_POINTER G_TYPE_STRING : GType.
Variable GST_TYPE_MIXER GST_TYPE_MIXER_TRACK GST_TYPE_MIXER_OPTIONS : GType.


End EmissionArguments.

Section ClassInitDefaults.

Context {U GLib : Type}.
Variable g_signal_new : SignalSpec → GLib → Z * GLib.
Variable G_TYPE_NONE G_TYPE_BOOLEAN G_TYPE_POINTER G_TYPE_STRING : GType.
Variable GST_TYPE_MIXER GST_TYPE_MIXER_TRACK GST_TYPE_MIXER_OPTIONS : GType.
Variable GST_MIXER_GET_CLASS : GstMixer → GstMixerClass U.

(** X13: a class structure that [gst_mixer_class_init] has gone over is
    a software mixer with no operation, whatever it held before and
    whatever the state of the registration: on a mixer of that class any
    series of set calls returns and changes nothing, the list of tracks is
    empty and the option read is NULL. *)
Theorem class_init_leaves_the_fallbacks
    (klass : GstMixerClass U) (t : TypeWorld GLib) mixer calls opts
    (w : World U) :
  GST_MIXER_GET_CLASS mixer =
    (gst_mixer_class_init_run g_signal_new G_TYPE_NONE G_TYPE_BOOLEAN
       G_TYPE_POINTER G_TYPE_STRING GST_TYPE_MIXER GST_TYPE_MIXER_TRACK
       GST_TYPE_MIXER_OPTIONS klass t).1 →
  mixer_type (GST_MIXER_GET_CLASS mixer) = GST_MIXER_SOFTWARE ∧
  run_calls GST_MIXER_GET_CLASS mixer calls w = Some (tt, w) ∧
  gst_mixer_list_tracks GST_MIXER_GET_CLASS mixer w = Some (GList_NULL, w) ∧
  gst_mixer_get_option GST_MIXER_GET_CLASS mixer opts w = Some (None, w).
Proof.
  intros Hclass. simpl in Hclass.
  assert (implements_nothing (GST_MIXER_GET_CLASS mixer)) as Hnothing
    by (rewrite Hclass; by repeat split).
  split; [by rewrite Hclass |].
  split; [by apply run_calls_unimplemented |].
  unfold gst_mixer_list_tracks, gst_mixer_get_option.
  by rewrite Hclass.
Qed.

End ClassInitDefaults.

(** ** The further properties on the examples *)

Lemma toy_signal_new_names spec g :
  toy_signal_name (toy_signal_new spec g).2 (toy_signal_new spec g).1 =
    Some (sig_name spec).
Proof.
  unfold toy_signal_name, toy_signal_new. simpl.
  rewrite bool_decide_eq_true_2 by lia.
  replace (Z.to_nat (Z.of_nat (S (length (toy_signals g))) - 1))
    with (length (toy_signals g)) by lia.
  by apply list_lookup_middle.
Qed.

Lemma toy_signal_new_keeps spec g id name :
  toy_signal_name g id = Some name →
  toy_signal_name (toy_signal_new spec g).2 id = Some name.
Proof.
  unfold toy_signal_name, toy_signal_new. simpl.
  case_bool_decide; [|done]. apply lookup_app_l_Some.
Qed.


Lemma get_volume_fallback_twice_witness :
  get_volume bare_class = None ∧
  is_gint (num_channels demo_master) ∧
  (gst_mixer_get_volume (λ _, bare_class) demo_mixer demo_master demo_buf ;;;
   gst_mixer_get_volume (λ _, bare_class) demo_mixer demo_master demo_buf)
    (demo_world [5; 6]) =
  gst_mixer_get_volume (λ _, bare_class) demo_mixer demo_master demo_buf
    (demo_world [5; 6]).
Proof.
  assert (is_gint (num_channels demo_master)) as Hint
    by (unfold is_gint, G_MININT, G_MAXINT; simpl; lia).
  split; [reflexivity |]. split; [exact Hint |].
  exact (get_volume_fallback_twice (λ _, bare_class) demo_mixer demo_master
           demo_buf (demo_world [5; 6]) eq_refl Hint).
Defined.

Lemma notification_record_when_returned_witness :
  ∃ w',
    notify failing_connections demo_mixer
      (N_volume_changed demo_master demo_buf) (demo_world []) =
      Some (tt, w') ∧
    w_log w' =
      [EvEmit 1%positive "volume-changed"
         [GV_track demo_master; GV_pointer demo_buf];
       EvEmit 2%positive "volume-changed" [GV_pointer demo_buf]].
Proof.
  eexists. split; [reflexivity |].
  rewrite (notification_record_when_returned failing_connections demo_mixer
             (N_volume_changed demo_master demo_buf) (demo_world []) _
             eq_refl).
  reflexivity.
Defined.

Lemma option_changed_skips_option_changed_of_options_witness :
  options_obj demo_source ≠ demo_mixer ∧
  signal_canon "option_changed" = "option-changed"%string ∧
  gst_mixer_option_changed
    ([] ++ {| c_id := 5; c_instance := options_obj demo_source;
              c_signal := "option_changed";
              c_handler := failing_handler |} :: [])
    demo_mixer demo_source (Some "Line-in"%string) (demo_world []) =
  gst_mixer_option_changed ([] ++ []) demo_mixer demo_source
    (Some "Line-in"%string) (demo_world []).
Proof.
  assert (options_obj demo_source ≠ demo_mixer) as Hother by discriminate.
  split; [exact Hother |]. split; [reflexivity |].
  exact (option_changed_skips_option_changed_of_options [] []
           {| c_id := 5; c_instance := options_obj demo_source;
              c_signal := "option_changed";
              c_handler := failing_handler |}
           demo_mixer demo_source (Some "Line-in"%string) (demo_world [])
           eq_refl Hother eq_refl).
Defined.

Lemma notification_kinds_do_not_cross_witness :
  notification_signal (N_volume_changed demo_master demo_buf) ≠
    notification_signal (N_mute_toggled demo_master true) ∧
  signal_canon (c_signal observer_A) =
    device_signal (N_mute_toggled demo_master true) ∧
  notify ([] ++ observer_A :: [observer_B]) demo_mixer
    (N_volume_changed demo_master demo_buf) (demo_world []) =
  notify ([] ++ [observer_B]) demo_mixer
    (N_volume_changed demo_master demo_buf) (demo_world []).
Proof.
  assert (notification_signal (N_volume_changed demo_master demo_buf) ≠
          notification_signal (N_mute_toggled demo_master true)) as Hkind
    by discriminate.
  split; [exact Hkind |]. split; [reflexivity |].
  exact (notification_kinds_do_not_cross [] [observer_B] observer_A
           demo_mixer (N_volume_changed demo_master demo_buf)
           (N_mute_toggled demo_master true) (demo_world [])
           Hkind (or_introl eq_refl)).
Defined.

Lemma get_type_registers_once_witness :
  ∃ t1,
    gst_mixer_get_type toy_register_static toy_add_prerequisite 8 100 200
      toy_start = (1, t1) ∧
    toy_types (t_glib t1) = ["GstMixer"%string] ∧
    get_type_calls toy_register_static toy_add_prerequisite 8 100 200 3 t1 =
      ([1; 1; 1], t1).
Proof.
  eexists. split; [reflexivity |]. split; [reflexivity |].
  apply (get_type_registers_once toy_register_static toy_add_prerequisite
           8 100 200 toy_start _ 1 3 eq_refl).
  discriminate.
Defined.

Lemma get_type_failure_not_latched_witness :
  gst_mixer_type (t_statics toy_start) = 0 ∧
  ∃ t1,
    gst_mixer_get_type (λ _ _ _ _ g, (0, g)) toy_add_prerequisite 8 100 200
      toy_start = (0, t1) ∧
    toy_prerequisites (t_glib t1) = [(0, 100)].
Proof.
  split; [reflexivity |].
  destruct (get_type_failure_not_latched (λ _ _ _ _ g, (0, g))
              toy_add_prerequisite 8 100 200 toy_start (t_glib toy_start)
              eq_refl eq_refl)
    as (t1 & Hcall & _ & Hglib & _).
  exists t1. split; [exact Hcall |]. rewrite Hglib. reflexivity.
Defined.

Lemma class_init_names_every_entry_witness :
  initialized (t_statics toy_start) = false ∧
  toy_signal_name
    (t_glib (class_init_runs toy_signal_new 4 20 68 64 1 104 108 3
               toy_start))
    (signal_ids
       (t_statics (class_init_runs toy_signal_new 4 20 68 64 1 104 108 3
                     toy_start))
       SIGNAL_MUTE_TOGGLED) =
    Some "mute-toggled"%string.
Proof.
  split; [reflexivity |].
  exact (class_init_names_every_entry toy_signal_new 4 20 68 64 1 104 108
           toy_signal_name toy_signal_new_names toy_signal_new_keeps
           2 toy_start SIGNAL_MUTE_TOGGLED eq_refl).
Defined.


Lemma class_init_leaves_the_fallbacks_witness :
  set_mute (demo_class demo_connections) =
    Some (demo_set_mute demo_connections) ∧
  gst_mixer_set_mute
    (λ _, (gst_mixer_class_init_run toy_signal_new 4 20 68 64 1 104 108
             (demo_class demo_connections) toy_start).1)
    demo_mixer demo_master true (demo_world []) =
    Some (tt, demo_world []).
Proof.
  split; [reflexivity |].
  exact (proj1 (proj2
    (class_init_leaves_the_fallbacks toy_signal_new 4 20 68 64 1 104 108
       (λ _, (gst_mixer_class_init_run toy_signal_new 4 20 68 64 1 104 108
                (demo_class demo_connections) toy_start).1)
       (demo_class demo_connections) toy_start demo_mixer
       [Call_set_mute demo_master true] demo_source (demo_world [])
       eq_refl))).
Defined.
